(** * BcmPortGroup: lane-mode resolution and flex-port reconfiguration

    A shallow embedding of [fboss/agent/hw/bcm/BcmPortGroup.cpp].

    - C++ exceptions and the one undefined operation of the file (an unsigned
      division whose divisor may be zero) are made explicit in the type
      [result].
    - The member functions that touch the ASIC run in a small state-and-error
      monad [M] over the pair of the group object and the hardware.
    - Everything the file only calls (the switch-state lookup, [BcmPort],
      the SDK accessors) is either an interface field or a definition marked
      as modelled from the specification. *)

From Stdlib Require Import ZArith List Bool Lia.
Import ListNotations.
Open Scope Z_scope.

(* ================================================================= *)
(** ** Basic data *)

(** Modelled from the spec: [cfg::PortSpeed], whose declaration is not part
    of the file.  It is an enumeration of transmission rates with a sentinel
    "unspecified" value [DEFAULT]; a value is represented by its underlying
    integer, which is 0 for the sentinel and positive for a real speed. *)
Definition PortSpeed := Z.
Definition DEFAULT : PortSpeed := 0.

(** [static_cast<uint32_t>(.)] *)
Definition uint32 (v : Z) : Z := v mod 2 ^ 32.

(** [static_cast<uint8_t>(.)], the return type of [getLane]. *)
Definition uint8 (v : Z) : Z := v mod 2 ^ 8.

(** Modelled from the spec: [BcmPortGroup::LaneMode], declared in the
    header, which is not part of the file.  Section 3: an ordered
    enumeration with SINGLE < DUAL < QUAD; [rank] realises that order, which
    is all that [neededMode < desiredMode] uses. *)
Inductive LaneMode := SINGLE | DUAL | QUAD.

Definition rank (m : LaneMode) : Z :=
  match m with SINGLE => 1 | DUAL => 2 | QUAD => 4 end.

Definition LaneMode_ltb (a b : LaneMode) : bool := rank a <? rank b.
Definition LaneMode_le (a b : LaneMode) : Prop := rank a <= rank b.

Definition LaneMode_eqb (a b : LaneMode) : bool :=
  match a, b with
  | SINGLE, SINGLE | DUAL, DUAL | QUAD, QUAD => true
  | _, _ => false
  end.

(** Calls this file makes into the SDK, directly or through [BcmPort]. *)
Inductive HwCall :=
| PortDisable (bcmPortId : Z)
| PortControlLanes (bcmPortId : Z) (lanes : Z)
| PortEnable (bcmPortId : Z).

(** The exceptions of the file, one constructor per [throw] site, plus the
    error an SDK call reports. *)
Inductive FbossError :=
| SpeedCannotBeDefault
| CannotSupportSpeed (speed : PortSpeed)
| NotFourMembers
| NotOrderedByLane
| UnexpectedNumberOfLanes (bcmPortId : Z)
| OnlyLane0InSingleMode
| OnlyLanes0Or2InDualMode
| PortDoesNotSupportSpeed (portID : Z) (speed : PortSpeed)
| BcmError (call : HwCall).

(** How a call ends: it returns, it throws, or it has executed an operation
    the language leaves undefined. *)
Inductive result (A : Type) :=
| Ok (a : A)
| Throw (e : FbossError)
| Undefined.
Arguments Ok {A} a.
Arguments Throw {A} e.
Arguments Undefined {A}.

Definition rbind {A B} (r : result A) (k : A -> result B) : result B :=
  match r with
  | Ok a => k a
  | Throw e => Throw e
  | Undefined => Undefined
  end.

Definition is_lane_placement_error (e : FbossError) : bool :=
  match e with
  | OnlyLane0InSingleMode | OnlyLanes0Or2InDualMode => true
  | _ => false
  end.

(** [state/Port.h]: what this file reads of a switch-state port. *)
Record Port := {
  getID : Z;
  getSpeed : PortSpeed;
  isDisabled : bool
}.

(* ================================================================= *)
(** ** The per-port requirement: [neededLaneModeForSpeed] *)

Definition neededLaneModeForSpeed (speed maxLaneSpeed : PortSpeed)
  : result LaneMode :=
  if speed =? DEFAULT then Throw SpeedCannotBeDefault
  else if uint32 maxLaneSpeed =? 0 then Undefined
  else
    let neededLanes := uint32 speed / uint32 maxLaneSpeed in
    if neededLanes <=? 1 then Ok QUAD
    else if neededLanes =? 2 then Ok DUAL
    else if (2 <? neededLanes) && (neededLanes <=? 4) then Ok SINGLE
    else Throw (CannotSupportSpeed speed).

(* ================================================================= *)
(** ** Group-wide resolution: [calculateDesiredLaneMode] *)

(** The lane check made for an enabled port once the running mode has been
    updated. *)
Definition checkLane (desiredMode : LaneMode) (lane : Z) : result unit :=
  match desiredMode with
  | SINGLE =>
      if negb (lane =? 0) then Throw OnlyLane0InSingleMode else Ok tt
  | DUAL =>
      if negb (lane =? 0) && negb (lane =? 2)
      then Throw OnlyLanes0Or2InDualMode else Ok tt
  | QUAD => Ok tt
  end.

(** The [for] loop, from position [lane] on, with the running
    [desiredMode]; [ports] is the part of the vector not yet visited. *)
Fixpoint calculateLoop (ports : list Port) (maxLaneSpeed : PortSpeed)
    (lane : Z) (desiredMode : LaneMode) : result LaneMode :=
  match ports with
  | [] => Ok desiredMode
  | port :: rest =>
      if negb (isDisabled port) then
        rbind (neededLaneModeForSpeed (getSpeed port) maxLaneSpeed)
          (fun neededMode =>
             let desiredMode' :=
               if LaneMode_ltb neededMode desiredMode
               then neededMode else desiredMode in
             rbind (checkLane desiredMode' lane)
               (fun _ => calculateLoop rest maxLaneSpeed (lane + 1)
                           desiredMode'))
      else calculateLoop rest maxLaneSpeed (lane + 1) desiredMode
  end.

Definition calculateDesiredLaneMode (ports : list Port)
    (maxLaneSpeed : PortSpeed) : result LaneMode :=
  calculateLoop ports maxLaneSpeed 0 QUAD.

(* ================================================================= *)
(** ** The hardware and the state monad *)

(** Modelled from the spec: the ASIC as this file sees it (the SDK behind
    [opennsl/port.h] is not part of the file).  [controlLanes] is the
    lane-control setting, keyed by hardware port identifier; [portEnabled] is
    the administrative state [BcmPort::enable]/[BcmPort::disable] drive;
    [rejects] tells which calls the SDK refuses with an error; [issued] is
    the history of calls made, oldest first. *)
Record Hw := {
  controlLanes : Z -> Z;
  portEnabled : Z -> bool;
  rejects : HwCall -> bool;
  issued : list HwCall
}.

Definition upd {V} (f : Z -> V) (k : Z) (v : V) : Z -> V :=
  fun k' => if k' =? k then v else f k'.

Definition logCall (c : HwCall) (hw : Hw) : Hw :=
  {| controlLanes := controlLanes hw;
     portEnabled := portEnabled hw;
     rejects := rejects hw;
     issued := issued hw ++ [c] |}.

Definition effect (c : HwCall) (hw : Hw) : Hw :=
  match c with
  | PortDisable id =>
      {| controlLanes := controlLanes hw;
         portEnabled := upd (portEnabled hw) id false;
         rejects := rejects hw;
         issued := issued hw |}
  | PortControlLanes id lanes =>
      {| controlLanes := upd (controlLanes hw) id lanes;
         portEnabled := portEnabled hw;
         rejects := rejects hw;
         issued := issued hw |}
  | PortEnable id =>
      {| controlLanes := controlLanes hw;
         portEnabled := upd (portEnabled hw) id true;
         rejects := rejects hw;
         issued := issued hw |}
  end.

(** Number of active lanes the register holds for a lane mode, the inverse
    of the [switch] in the constructor. *)
Definition activeLanesOf (m : LaneMode) : Z :=
  match m with SINGLE => 4 | DUAL => 2 | QUAD => 1 end.

Section Group.

(** [SwitchState] is opaque to this file: it is only handed to
    [BcmPort::getSwitchStatePort]. *)
Variable SwitchState : Type.

(** [BcmPort.h]: the interface of a hardware port, as used here. *)
Record BcmPort := {
  getBcmPortId : Z;
  maxLaneSpeed : PortSpeed;
  supportsSpeed : PortSpeed -> bool;
  getSwitchStatePort : SwitchState -> Port
}.

(** The data members of the class ([hw_] is the [Hw] threaded by [M]). *)
Record BcmPortGroup := {
  controllingPort_ : BcmPort;
  allPorts_ : list BcmPort;
  laneMode_ : LaneMode
}.

Record Machine := {
  this : BcmPortGroup;
  asic : Hw
}.

Definition M (A : Type) : Type := Machine -> result A * Machine.

Definition ret {A} (a : A) : M A := fun m => (Ok a, m).

Definition bind {A B} (c : M A) (k : A -> M B) : M B :=
  fun m =>
    match c m with
    | (Ok a, m') => k a m'
    | (Throw e, m') => (Throw e, m')
    | (Undefined, m') => (Undefined, m')
    end.

Definition lift {A} (r : result A) : M A := fun m => (r, m).

Definition getThis : M BcmPortGroup := fun m => (Ok (this m), m).

Definition setLaneMode (mode : LaneMode) : M unit :=
  fun m =>
    (Ok tt,
     {| this := {| controllingPort_ := controllingPort_ (this m);
                   allPorts_ := allPorts_ (this m);
                   laneMode_ := mode |};
        asic := asic m |}).

(** One SDK call: it is recorded, then either refused (the error is thrown
    and the hardware keeps its state) or carried out. *)
Definition sdkCall (c : HwCall) : M unit :=
  fun m =>
    let hw := logCall c (asic m) in
    if rejects (asic m) c
    then (Throw (BcmError c), {| this := this m; asic := hw |})
    else (Ok tt, {| this := this m; asic := effect c hw |}).

(** Modelled from the spec: [BcmPort::disable] and [BcmPort::enable]
    ([BcmPort.cpp] is missing), the external port-disable and port-enable
    interface of section 6. *)
Definition BcmPort_disable (bcmPort : BcmPort) (swPort : Port) : M unit :=
  sdkCall (PortDisable (getBcmPortId bcmPort)).

Definition BcmPort_enable (bcmPort : BcmPort) (swPort : Port) : M unit :=
  sdkCall (PortEnable (getBcmPortId bcmPort)).

(** Modelled from the spec: [BcmPortGroup::retrieveActiveLanes] (its
    definition is missing), [getActiveLaneCount(hardwarePortId)] of section 6,
    read for the controlling port. *)
Definition retrieveActiveLanes (hw : Hw) (controllingPort : BcmPort) : Z :=
  controlLanes hw (getBcmPortId controllingPort).

(** Modelled from the spec: [BcmPortGroup::setActiveLanes] (its definition
    is missing).  Section 4.4, step 2: the new lane mode is written to the
    lane-control register keyed by the controlling port's hardware
    identifier; this is the single point of mutation of the recorded lane
    mode, and the update only happens after the write has succeeded. *)
Definition setActiveLanes (desiredLaneMode : LaneMode) : M unit :=
  bind getThis (fun g =>
  bind (sdkCall (PortControlLanes (getBcmPortId (controllingPort_ g))
                   (activeLanesOf desiredLaneMode))) (fun _ =>
  setLaneMode desiredLaneMode)).

(* ================================================================= *)
(** ** Construction *)

Definition getLane (controllingPort bcmPort : BcmPort) : Z :=
  uint8 (getBcmPortId bcmPort - getBcmPortId controllingPort).

(** The ordering loop of the constructor, from index [i] on. *)
Fixpoint checkOrdered (controllingPort : BcmPort) (allPorts : list BcmPort)
    (i : Z) : result unit :=
  match allPorts with
  | [] => Ok tt
  | bcmPort :: rest =>
      if negb (getLane controllingPort bcmPort =? i)
      then Throw NotOrderedByLane
      else checkOrdered controllingPort rest (i + 1)
  end.

Definition BcmPortGroup_ctor (hw : Hw) (controllingPort : BcmPort)
    (allPorts : list BcmPort) : result BcmPortGroup :=
  if negb (Z.of_nat (length allPorts) =? 4) then Throw NotFourMembers
  else
    rbind (checkOrdered controllingPort allPorts 0) (fun _ =>
    let activeLanes := retrieveActiveLanes hw controllingPort in
    let built mode :=
      Ok {| controllingPort_ := controllingPort;
            allPorts_ := allPorts;
            laneMode_ := mode |} in
    if activeLanes =? 1 then built QUAD
    else if activeLanes =? 2 then built DUAL
    else if activeLanes =? 4 then built SINGLE
    else Throw (UnexpectedNumberOfLanes (getBcmPortId controllingPort))).

(* ================================================================= *)
(** ** Resolution over a snapshot: [getDesiredLaneMode] *)

(** The loop filling the vector [ports]; [ports] holds what has been pushed
    so far. *)
Fixpoint collectPorts (bcmPorts : list BcmPort) (state : SwitchState)
    (ports : list Port) : result (list Port) :=
  match bcmPorts with
  | [] => Ok ports
  | bcmPort :: rest =>
      let swPort := getSwitchStatePort bcmPort state in
      if negb (supportsSpeed bcmPort (getSpeed swPort))
      then Throw (PortDoesNotSupportSpeed (getID swPort) (getSpeed swPort))
      else collectPorts rest state (ports ++ [swPort])
  end.

Definition getDesiredLaneMode (g : BcmPortGroup) (state : SwitchState)
  : result LaneMode :=
  rbind (collectPorts (allPorts_ g) state []) (fun ports =>
  calculateDesiredLaneMode ports (maxLaneSpeed (controllingPort_ g))).

(** [try { getDesiredLaneMode(state); } catch (const std::exception&)
    { return false; } return true;] *)
Definition validConfiguration (g : BcmPortGroup) (state : SwitchState)
  : result bool :=
  match getDesiredLaneMode g state with
  | Ok _ => Ok true
  | Throw _ => Ok false
  | Undefined => Undefined
  end.

(* ================================================================= *)
(** ** Reconfiguration *)

(** Step 1 of [reconfigure]. *)
Fixpoint disableMembers (bcmPorts : list BcmPort) (state : SwitchState)
  : M unit :=
  match bcmPorts with
  | [] => ret tt
  | bcmPort :: rest =>
      let swPort := getSwitchStatePort bcmPort state in
      bind (BcmPort_disable bcmPort swPort) (fun _ =>
      disableMembers rest state)
  end.

(** Step 4 of [reconfigure]. *)
Fixpoint enableMembers (bcmPorts : list BcmPort) (state : SwitchState)
  : M unit :=
  match bcmPorts with
  | [] => ret tt
  | bcmPort :: rest =>
      let swPort := getSwitchStatePort bcmPort state in
      bind (if negb (isDisabled swPort)
            then BcmPort_enable bcmPort swPort
            else ret tt) (fun _ =>
      enableMembers rest state)
  end.

Definition reconfigure (state : SwitchState) (newLaneMode : LaneMode)
  : M unit :=
  bind getThis (fun g =>
  bind (disableMembers (allPorts_ g) state) (fun _ =>
  bind (setActiveLanes newLaneMode) (fun _ =>
  enableMembers (allPorts_ g) state))).

Definition reconfigureIfNeeded (state : SwitchState) : M unit :=
  bind getThis (fun g =>
  bind (lift (getDesiredLaneMode g state)) (fun desiredLaneMode =>
  if negb (LaneMode_eqb desiredLaneMode (laneMode_ g))
  then reconfigure state desiredLaneMode
  else ret tt)).

End Group.

Arguments getBcmPortId {SwitchState} _.
Arguments maxLaneSpeed {SwitchState} _.
Arguments supportsSpeed {SwitchState} _ _.
Arguments getSwitchStatePort {SwitchState} _ _.
Arguments controllingPort_ {SwitchState} _.
Arguments allPorts_ {SwitchState} _.
Arguments laneMode_ {SwitchState} _.
Arguments this {SwitchState} _.
Arguments asic {SwitchState} _.
Arguments ret {SwitchState A} _ _.
Arguments bind {SwitchState A B} _ _ _.
Arguments lift {SwitchState A} _ _.
Arguments getThis {SwitchState} _.
Arguments setLaneMode {SwitchState} _ _.
Arguments sdkCall {SwitchState} _ _.
Arguments BcmPort_disable {SwitchState} _ _ _.
Arguments BcmPort_enable {SwitchState} _ _ _.
Arguments retrieveActiveLanes {SwitchState} _ _.
Arguments setActiveLanes {SwitchState} _ _.
Arguments getLane {SwitchState} _ _.
Arguments checkOrdered {SwitchState} _ _ _.
Arguments BcmPortGroup_ctor {SwitchState} _ _ _.
Arguments collectPorts {SwitchState} _ _ _.
Arguments getDesiredLaneMode {SwitchState} _ _.
Arguments validConfiguration {SwitchState} _ _.
Arguments disableMembers {SwitchState} _ _ _.
Arguments enableMembers {SwitchState} _ _ _.
Arguments reconfigure {SwitchState} _ _ _.
Arguments reconfigureIfNeeded {SwitchState} _ _.

(* ================================================================= *)
(** ** A concrete group for examples *)

Module Example.

(** A snapshot is the four ports by lane. *)
Definition Snapshot := list Port.

Definition XG : PortSpeed := 10000.
Definition TWENTYG : PortSpeed := 20000.
Definition FORTYG : PortSpeed := 40000.

Definition port (lane : nat) (speed : PortSpeed) (disabled : bool) : Port :=
  {| getID := 1 + Z.of_nat lane; getSpeed := speed; isDisabled := disabled |}.

Definition noPort : Port :=
  {| getID := 0; getSpeed := DEFAULT; isDisabled := true |}.

(** The hardware port on lane [lane] of the group whose controlling port
    has identifier 1; each lane runs at 10G at most. *)
Definition bcmPort (lane : nat) : BcmPort Snapshot :=
  {| getBcmPortId := 1 + Z.of_nat lane;
     maxLaneSpeed := XG;
     supportsSpeed := fun s =>
       (s =? XG) || (s =? TWENTYG) || (s =? FORTYG);
     getSwitchStatePort := fun st => nth lane st noPort |}.

Definition members : list (BcmPort Snapshot) :=
  [bcmPort 0; bcmPort 1; bcmPort 2; bcmPort 3].

Definition group (mode : LaneMode) : BcmPortGroup Snapshot :=
  {| controllingPort_ := bcmPort 0;
     allPorts_ := members;
     laneMode_ := mode |}.

(** A chip on which the group has [lanes] active lanes, every port is
    down, no call is refused and nothing has been called yet. *)
Definition chip (lanes : Z) : Hw :=
  {| controlLanes := fun _ => lanes;
     portEnabled := fun _ => false;
     rejects := fun _ => false;
     issued := [] |}.

Definition machine (mode : LaneMode) : Machine Snapshot :=
  {| this := group mode; asic := chip (activeLanesOf mode) |}.

(** Scenario A of the specification: four 10G ports. *)
Definition allTenG : Snapshot :=
  [port 0 XG false; port 1 XG false; port 2 XG false; port 3 XG false].

(** Scenario B: lane 0 at 40G, the others disabled. *)
Definition oneFortyG : Snapshot :=
  [port 0 FORTYG false; port 1 XG true; port 2 XG true; port 3 XG true].

(** Scenario C: lanes 0 and 2 at 20G, lanes 1 and 3 disabled. *)
Definition twoTwentyG : Snapshot :=
  [port 0 TWENTYG false; port 1 XG true;
   port 2 TWENTYG false; port 3 XG true].

(** Scenario D: lane 1 at 40G, the others disabled. *)
Definition fortyGOnLane1 : Snapshot :=
  [port 0 XG true; port 1 FORTYG false; port 2 XG true; port 3 XG true].

(** Lanes 0 and 1 at 10G, lane 2 at 20G, lane 3 disabled. *)
Definition twentyGAfterLane1 : Snapshot :=
  [port 0 XG false; port 1 XG false; port 2 TWENTYG false; port 3 XG true].

Definition allDisabled : Snapshot :=
  [port 0 FORTYG true; port 1 FORTYG true;
   port 2 FORTYG true; port 3 FORTYG true].

(** The machine after the group, in QUAD, has been reconfigured for
    scenario B. *)
Definition afterOneFortyG : Machine Snapshot :=
  snd (reconfigureIfNeeded oneFortyG (machine QUAD)).

(** A chip like [chip] that refuses the calls [refused] picks out. *)
Definition faultyChip (lanes : Z) (refused : HwCall -> bool) : Hw :=
  {| controlLanes := fun _ => lanes;
     portEnabled := fun _ => true;
     rejects := refused;
     issued := [] |}.

Definition isLanesWrite (c : HwCall) : bool :=
  match c with PortControlLanes _ _ => true | _ => false end.

Definition isEnable (c : HwCall) : bool :=
  match c with PortEnable _ => true | _ => false end.

(** The group in QUAD on a chip that refuses every write of the
    lane-control register, with all ports up. *)
Definition lanesStuck : Machine Snapshot :=
  {| this := group QUAD; asic := faultyChip 1 isLanesWrite |}.

(** The same on a chip that refuses to bring ports up. *)
Definition enableStuck : Machine Snapshot :=
  {| this := group QUAD; asic := faultyChip 1 isEnable |}.

(** A snapshot with four disabled ports, lane 3 at a rate its port does
    not support. *)
Definition disabledOddSpeed : Snapshot :=
  [port 0 XG true; port 1 XG true; port 2 XG true; port 3 12345 true].

(** Members whose identifiers are those of [members] shifted by 256. *)
Definition farMember (lane : nat) : BcmPort Snapshot :=
  {| getBcmPortId := 257 + Z.of_nat lane;
     maxLaneSpeed := XG;
     supportsSpeed := fun _ => true;
     getSwitchStatePort := fun st => nth lane st noPort |}.

End Example.

(* ================================================================= *)
(** ** Vocabulary of the properties *)

(** The running mode after an enabled port is the smaller of the port's
    need and the mode so far. *)
Definition adopt (neededMode desiredMode : LaneMode) : LaneMode :=
  if LaneMode_ltb neededMode desiredMode then neededMode else desiredMode.

(** The port vector with the port at position [lane] replaced. *)
Fixpoint replaceLane (ports : list Port) (lane : nat) (p : Port)
  : list Port :=
  match ports, lane with
  | [], _ => []
  | _ :: rest, O => p :: rest
  | q :: rest, S k => q :: replaceLane rest k p
  end.

(** [ports'] is [ports] except at positions whose port was disabled in
    [ports]. *)
Definition onlyDisabledChanged (ports ports' : list Port) : Prop :=
  Forall2 (fun p p' => p' = p \/ isDisabled p = true) ports ports'.

(** The hardware after the calls [cs] have been made in order, none of
    them refused. *)
Definition replay (cs : list HwCall) (hw : Hw) : Hw :=
  fold_left (fun h c => effect c (logCall c h)) cs hw.

(** The calls [cs] made in order on hardware that may refuse them: the
    first refused call is recorded and ends the run with its error. *)
Fixpoint issue (cs : list HwCall) (hw : Hw) : result unit * Hw :=
  match cs with
  | [] => (Ok tt, hw)
  | c :: rest =>
      if rejects hw c then (Throw (BcmError c), logCall c hw)
      else issue rest (effect c (logCall c hw))
  end.

Section GroupVocabulary.

Variable SwitchState : Type.

(** The group object with its recorded lane mode set to [mode]. *)
Definition withLaneMode (g : BcmPortGroup SwitchState) (mode : LaneMode)
  : BcmPortGroup SwitchState :=
  {| controllingPort_ := controllingPort_ g;
     allPorts_ := allPorts_ g;
     laneMode_ := mode |}.

(** What the constructor checks of its arguments: four members, the member
    at index [i] on lane [i]. *)
Definition wellFormed (g : BcmPortGroup SwitchState) : Prop :=
  length (allPorts_ g) = 4%nat /\
  checkOrdered (controllingPort_ g) (allPorts_ g) 0 = Ok tt.

(** The recorded lane mode is the one the lane-control register of the
    controlling port holds. *)
Definition inSync (m : Machine SwitchState) : Prop :=
  retrieveActiveLanes (asic m) (controllingPort_ (this m))
  = activeLanesOf (laneMode_ (this m)).

(** The write of the lane-control register for [mode]. *)
Definition lanesCall (g : BcmPortGroup SwitchState) (mode : LaneMode)
  : HwCall :=
  PortControlLanes (getBcmPortId (controllingPort_ g)) (activeLanesOf mode).

Definition disableCalls (g : BcmPortGroup SwitchState) : list HwCall :=
  map (fun bcmPort => PortDisable (getBcmPortId bcmPort)) (allPorts_ g).

(** The members whose port is enabled in the snapshot. *)
Definition enabledMembers (bcmPorts : list (BcmPort SwitchState))
    (state : SwitchState) : list (BcmPort SwitchState) :=
  filter (fun bcmPort => negb (isDisabled (getSwitchStatePort bcmPort state)))
    bcmPorts.

Definition enableCalls (g : BcmPortGroup SwitchState) (state : SwitchState)
  : list HwCall :=
  map (fun bcmPort => PortEnable (getBcmPortId bcmPort))
    (enabledMembers (allPorts_ g) state).

(** The calls of a whole reconfiguration to [mode], in order. *)
Definition reconfigureCalls (g : BcmPortGroup SwitchState)
    (state : SwitchState) (mode : LaneMode) : list HwCall :=
  disableCalls g ++ [lanesCall g mode] ++ enableCalls g state.

(** [m'] differs from [m] by port enable/disable calls at most: the group
    object, the lane-control setting and the set of refused calls are the
    same. *)
Definition portCallsOnly (m m' : Machine SwitchState) : Prop :=
  this m' = this m /\
  controlLanes (asic m') = controlLanes (asic m) /\
  rejects (asic m') = rejects (asic m).

End GroupVocabulary.

Arguments withLaneMode {SwitchState} _ _.
Arguments wellFormed {SwitchState} _.
Arguments inSync {SwitchState} _.
Arguments lanesCall {SwitchState} _ _.
Arguments disableCalls {SwitchState} _.
Arguments enabledMembers {SwitchState} _ _.
Arguments enableCalls {SwitchState} _ _.
Arguments reconfigureCalls {SwitchState} _ _ _.
Arguments portCallsOnly {SwitchState} _ _.
(* ================================================================= *)
(** * Properties *)

(** ** The lane-mode order *)

Lemma LaneMode_eqb_eq (a b : LaneMode) : LaneMode_eqb a b = true <-> a = b.
Proof. destruct a, b; simpl; split; congruence. Qed.

Lemma LaneMode_eqb_refl (a : LaneMode) : LaneMode_eqb a a = true.
Proof. now destruct a. Qed.

Lemma LaneMode_le_refl (a : LaneMode) : LaneMode_le a a.
Proof. unfold LaneMode_le; lia. Qed.

Lemma LaneMode_le_trans (a b c : LaneMode) :
  LaneMode_le a b -> LaneMode_le b c -> LaneMode_le a c.
Proof. unfold LaneMode_le; lia. Qed.

Lemma SINGLE_least (a : LaneMode) : LaneMode_le SINGLE a.
Proof. destruct a; unfold LaneMode_le; simpl; lia. Qed.

Lemma adopt_le_r (n d : LaneMode) : LaneMode_le (adopt n d) d.
Proof.
  unfold adopt, LaneMode_ltb, LaneMode_le.
  destruct (Z.ltb_spec (rank n) (rank d)); lia.
Qed.

Lemma adopt_mono (n d d' : LaneMode) :
  LaneMode_le d' d -> LaneMode_le (adopt n d') (adopt n d).
Proof.
  unfold adopt, LaneMode_ltb, LaneMode_le.
  destruct (Z.ltb_spec (rank n) (rank d)), (Z.ltb_spec (rank n) (rank d'));
    lia.
Qed.

(* ================================================================= *)
(** ** [neededLaneModeForSpeed] *)

Lemma uint32_range (v : Z) : 0 <= uint32 v < 2 ^ 32.
Proof. unfold uint32. apply Z.mod_pos_bound. lia. Qed.

Lemma neededLaneModeForSpeed_DEFAULT (maxLaneSpeed : PortSpeed) :
  neededLaneModeForSpeed DEFAULT maxLaneSpeed = Throw SpeedCannotBeDefault.
Proof. reflexivity. Qed.

Lemma neededLaneModeForSpeed_zero_divisor (speed maxLaneSpeed : PortSpeed) :
  speed <> DEFAULT -> uint32 maxLaneSpeed = 0 ->
  neededLaneModeForSpeed speed maxLaneSpeed = Undefined.
Proof.
  intros Hs Hm. unfold neededLaneModeForSpeed.
  destruct (Z.eqb_spec speed DEFAULT); [contradiction|].
  now rewrite Hm.
Qed.

Lemma neededLaneModeForSpeed_defined (speed maxLaneSpeed : PortSpeed) :
  uint32 maxLaneSpeed <> 0 ->
  neededLaneModeForSpeed speed maxLaneSpeed <> Undefined.
Proof.
  intros Hm. unfold neededLaneModeForSpeed.
  destruct (speed =? DEFAULT); [discriminate|].
  destruct (Z.eqb_spec (uint32 maxLaneSpeed) 0); [contradiction|].
  cbv zeta.
  repeat match goal with |- context [if ?c then _ else _] => destruct c end;
    discriminate.
Qed.

(** C4, as amended.  For a speed other than [DEFAULT] and a per-lane maximum
    whose unsigned 32-bit value is not zero, let [q] be the quotient of the
    two unsigned 32-bit values, rounded down.  The function returns QUAD
    when [q <= 1], DUAL when [q = 2], SINGLE when [2 < q <= 4], and throws
    when [4 < q].  When the speed is [DEFAULT] it throws, whatever the
    per-lane maximum. *)
Theorem neededLaneModeForSpeed_spec (speed maxLaneSpeed : PortSpeed) :
  (speed = DEFAULT ->
   neededLaneModeForSpeed speed maxLaneSpeed = Throw SpeedCannotBeDefault) /\
  (speed <> DEFAULT -> uint32 maxLaneSpeed <> 0 ->
   let q := uint32 speed / uint32 maxLaneSpeed in
   (q <= 1 -> neededLaneModeForSpeed speed maxLaneSpeed = Ok QUAD) /\
   (q = 2 -> neededLaneModeForSpeed speed maxLaneSpeed = Ok DUAL) /\
   (2 < q <= 4 -> neededLaneModeForSpeed speed maxLaneSpeed = Ok SINGLE) /\
   (4 < q ->
    neededLaneModeForSpeed speed maxLaneSpeed
    = Throw (CannotSupportSpeed speed))).
Proof.
  split.
  - intros ->. reflexivity.
  - intros Hs Hm q. unfold neededLaneModeForSpeed.
    destruct (Z.eqb_spec speed DEFAULT); [contradiction|].
    destruct (Z.eqb_spec (uint32 maxLaneSpeed) 0); [contradiction|].
    fold q. cbv zeta.
    destruct (Z.leb_spec q 1), (Z.eqb_spec q 2), (Z.ltb_spec 2 q),
      (Z.leb_spec q 4); simpl; repeat split; intros; try reflexivity; lia.
Qed.

(** The amended C4 at 40G over 10G lanes, and at the sentinel. *)
Lemma neededLaneModeForSpeed_spec_witness :
  neededLaneModeForSpeed DEFAULT 10000 = Throw SpeedCannotBeDefault /\
  neededLaneModeForSpeed 40000 10000 = Ok SINGLE.
Proof.
  split.
  - apply (proj1 (neededLaneModeForSpeed_spec DEFAULT 10000)). reflexivity.
  - apply (proj2 (neededLaneModeForSpeed_spec 40000 10000)).
    + discriminate.
    + discriminate.
    + vm_compute. split; [reflexivity | discriminate].
Defined.

(** C4 as stated fails where the per-lane maximum is zero: for the
    non-sentinel speed 10000 the call neither returns a lane mode nor raises
    an error. *)
Lemma neededLaneModeForSpeed_zero_max_counterexample :
  10000 <> DEFAULT /\
  ~ (exists m, neededLaneModeForSpeed 10000 0 = Ok m) /\
  ~ (exists e, neededLaneModeForSpeed 10000 0 = Throw e).
Proof.
  split; [discriminate|].
  split; intros [x Hx]; vm_compute in Hx; discriminate.
Qed.

(** C10.  The division is unguarded.  With a per-lane maximum whose numeric
    (unsigned 32-bit) value is positive the function always returns a mode
    or throws; with a per-lane maximum of numeric value zero, in particular
    the sentinel [DEFAULT] itself, it is undefined for every speed other
    than the sentinel. *)
Theorem neededLaneModeForSpeed_total_iff_positive_divisor
    (speed maxLaneSpeed : PortSpeed) :
  (0 < uint32 maxLaneSpeed ->
   (exists m, neededLaneModeForSpeed speed maxLaneSpeed = Ok m) \/
   (exists e, neededLaneModeForSpeed speed maxLaneSpeed = Throw e)) /\
  (speed <> DEFAULT -> uint32 maxLaneSpeed = 0 ->
   neededLaneModeForSpeed speed maxLaneSpeed = Undefined) /\
  (speed <> DEFAULT -> neededLaneModeForSpeed speed DEFAULT = Undefined).
Proof.
  split; [|split].
  - intros Hm.
    assert (Hd := neededLaneModeForSpeed_defined speed maxLaneSpeed).
    destruct (neededLaneModeForSpeed speed maxLaneSpeed) as [m|e|].
    + left; now exists m.
    + right; now exists e.
    + exfalso; apply Hd; [lia | reflexivity].
  - apply neededLaneModeForSpeed_zero_divisor.
  - intros Hs. now apply neededLaneModeForSpeed_zero_divisor.
Qed.

(** C10 at a 10G per-lane maximum, and at a zero one. *)
Lemma neededLaneModeForSpeed_total_iff_positive_divisor_witness :
  ((exists m, neededLaneModeForSpeed 25000 10000 = Ok m) \/
   (exists e, neededLaneModeForSpeed 25000 10000 = Throw e)) /\
  neededLaneModeForSpeed 25000 0 = Undefined.
Proof.
  split.
  - apply (proj1 (neededLaneModeForSpeed_total_iff_positive_divisor
                    25000 10000)).
    vm_compute. reflexivity.
  - apply (proj1 (proj2 (neededLaneModeForSpeed_total_iff_positive_divisor
                           25000 0))).
    + discriminate.
    + reflexivity.
Defined.

(* ================================================================= *)
(** ** [calculateDesiredLaneMode] *)

Lemma calculateLoop_cons (port : Port) (rest : list Port)
    (maxLaneSpeed : PortSpeed) (lane : Z) (desiredMode : LaneMode) :
  calculateLoop (port :: rest) maxLaneSpeed lane desiredMode =
  if isDisabled port
  then calculateLoop rest maxLaneSpeed (lane + 1) desiredMode
  else
    rbind (neededLaneModeForSpeed (getSpeed port) maxLaneSpeed) (fun n =>
    rbind (checkLane (adopt n desiredMode) lane) (fun _ =>
    calculateLoop rest maxLaneSpeed (lane + 1) (adopt n desiredMode))).
Proof. simpl. now destruct (isDisabled port). Qed.

(** What a successful step over an enabled port tells. *)
Lemma calculateLoop_enabled_ok (port : Port) (rest : list Port)
    (maxLaneSpeed : PortSpeed) (lane : Z) (d m : LaneMode) :
  isDisabled port = false ->
  calculateLoop (port :: rest) maxLaneSpeed lane d = Ok m ->
  exists n,
    neededLaneModeForSpeed (getSpeed port) maxLaneSpeed = Ok n /\
    checkLane (adopt n d) lane = Ok tt /\
    calculateLoop rest maxLaneSpeed (lane + 1) (adopt n d) = Ok m.
Proof.
  intros Hen. rewrite calculateLoop_cons, Hen.
  destruct (neededLaneModeForSpeed _ _) as [n| |]; simpl; try discriminate.
  destruct (checkLane (adopt n d) lane) as [[]| |] eqn:Hc; simpl;
    try discriminate.
  intros H. exists n. auto.
Qed.

Lemma calculateLoop_all_disabled (ports : list Port)
    (maxLaneSpeed : PortSpeed) :
  (forall p, In p ports -> isDisabled p = true) ->
  forall lane d, calculateLoop ports maxLaneSpeed lane d = Ok d.
Proof.
  induction ports as [|p rest IH]; intros Hall lane d.
  - reflexivity.
  - rewrite calculateLoop_cons, (Hall p (or_introl eq_refl)).
    apply IH. intros q Hq. apply Hall. now right.
Qed.

(** When every port of the vector is disabled, the lane resolution alone
    succeeds with QUAD, whatever the configured speeds and the per-lane
    maximum (for a vector of any length, so for the four ports of a
    group). *)
Theorem calculateDesiredLaneMode_all_disabled (ports : list Port)
    (maxLaneSpeed : PortSpeed) :
  (forall p, In p ports -> isDisabled p = true) ->
  calculateDesiredLaneMode ports maxLaneSpeed = Ok QUAD.
Proof.
  intros Hall. unfold calculateDesiredLaneMode.
  now apply calculateLoop_all_disabled.
Qed.

(** Four disabled 40G ports over 10G lanes. *)
Lemma calculateDesiredLaneMode_all_disabled_witness :
  calculateDesiredLaneMode Example.allDisabled Example.XG = Ok QUAD.
Proof.
  apply (calculateDesiredLaneMode_all_disabled Example.allDisabled).
  intros p Hp. simpl in Hp.
  destruct Hp as [<-|[<-|[<-|[<-|[]]]]]; reflexivity.
Defined.

(** The result never exceeds the mode the loop starts from. *)
Lemma calculateLoop_le_start (ports : list Port) (maxLaneSpeed : PortSpeed) :
  forall lane d m,
    calculateLoop ports maxLaneSpeed lane d = Ok m -> LaneMode_le m d.
Proof.
  induction ports as [|p rest IH]; intros lane d m H.
  - simpl in H. injection H as <-. apply LaneMode_le_refl.
  - destruct (isDisabled p) eqn:Hd.
    + rewrite calculateLoop_cons, Hd in H. eauto.
    + destruct (calculateLoop_enabled_ok _ _ _ _ _ _ Hd H)
        as (n & _ & _ & Hrest).
      eapply LaneMode_le_trans; [eapply IH, Hrest | apply adopt_le_r].
Qed.

(** Enabling ports that were disabled, starting from a mode that is no
    higher, can only lower the result. *)
Lemma calculateLoop_mono (maxLaneSpeed : PortSpeed)
    (ports ports' : list Port) :
  onlyDisabledChanged ports ports' ->
  forall lane d d' m m',
    LaneMode_le d' d ->
    calculateLoop ports maxLaneSpeed lane d = Ok m ->
    calculateLoop ports' maxLaneSpeed lane d' = Ok m' ->
    LaneMode_le m' m.
Proof.
  induction 1 as [|p p' rest rest' Hp _ IH]; intros lane d d' m m' Hle H H'.
  - simpl in H, H'. injection H as <-. injection H' as <-. exact Hle.
  - destruct (isDisabled p) eqn:Hd.
    + rewrite calculateLoop_cons, Hd in H.
      destruct (isDisabled p') eqn:Hd'.
      * rewrite calculateLoop_cons, Hd' in H'. eauto.
      * destruct (calculateLoop_enabled_ok _ _ _ _ _ _ Hd' H')
          as (n & _ & _ & Hrest').
        eapply IH; [|exact H|exact Hrest'].
        eapply LaneMode_le_trans; [apply adopt_le_r | exact Hle].
    + destruct Hp as [->|Hp]; [|congruence].
      destruct (calculateLoop_enabled_ok _ _ _ _ _ _ Hd H)
        as (n & Hn & _ & Hrest).
      destruct (calculateLoop_enabled_ok _ _ _ _ _ _ Hd H')
        as (n' & Hn' & _ & Hrest').
      rewrite Hn in Hn'. injection Hn' as <-.
      eapply IH; [|exact Hrest|exact Hrest'].
      now apply adopt_mono.
Qed.

Lemma onlyDisabledChanged_refl (ports : list Port) :
  onlyDisabledChanged ports ports.
Proof. induction ports; constructor; auto. Qed.

Lemma onlyDisabledChanged_replaceLane (ports : list Port) :
  forall lane p p',
    nth_error ports lane = Some p -> isDisabled p = true ->
    onlyDisabledChanged ports (replaceLane ports lane p').
Proof.
  induction ports as [|q rest IH]; intros [|k] p p' Hnth Hd;
    simpl in *; try discriminate.
  - injection Hnth as ->. constructor; [now right|].
    apply onlyDisabledChanged_refl.
  - constructor; [now left | exact (IH _ _ _ Hnth Hd)].
Qed.

(** C9.  Take a configuration on which resolution succeeds with mode [m]
    and switch the port at one lane, disabled so far, to an enabled port.
    If resolution still succeeds, with mode [m'], then
    SINGLE <= [m'] <= [m]: the result is at least as lane-demanding as
    before.  (The bound holds for any requirement of the new port, so in
    particular for one above every other port's.) *)
Theorem calculateDesiredLaneMode_monotone (ports : list Port)
    (maxLaneSpeed : PortSpeed) (lane : nat) (p p' : Port)
    (m m' : LaneMode) :
  nth_error ports lane = Some p ->
  isDisabled p = true ->
  isDisabled p' = false ->
  calculateDesiredLaneMode ports maxLaneSpeed = Ok m ->
  calculateDesiredLaneMode (replaceLane ports lane p') maxLaneSpeed
    = Ok m' ->
  LaneMode_le SINGLE m' /\ LaneMode_le m' m.
Proof.
  intros Hnth Hd _ H H'. split; [apply SINGLE_least|].
  unfold calculateDesiredLaneMode in *.
  eapply calculateLoop_mono;
    [eapply onlyDisabledChanged_replaceLane; eassumption
    | apply LaneMode_le_refl | exact H | exact H'].
Qed.

(** C9 on a group with only lane 0 up, at 10G (QUAD), once lane 2 comes up
    at 20G (DUAL). *)
Lemma calculateDesiredLaneMode_monotone_witness :
  LaneMode_le SINGLE DUAL /\ LaneMode_le DUAL QUAD.
Proof.
  apply (calculateDesiredLaneMode_monotone
           [Example.port 0 Example.XG false; Example.port 1 Example.XG true;
            Example.port 2 Example.XG true; Example.port 3 Example.XG true]
           Example.XG 2 (Example.port 2 Example.XG true)
           (Example.port 2 Example.TWENTYG false) QUAD DUAL);
    reflexivity.
Defined.

(** The premise that the replaced port was disabled matters: replacing an
    enabled 40G port on lane 0 by an enabled 20G port relaxes the result
    from SINGLE to DUAL. *)
Example replacing_an_enabled_port_can_relax :
  let ports := [Example.port 0 Example.FORTYG false;
                Example.port 1 Example.XG true;
                Example.port 2 Example.XG true;
                Example.port 3 Example.XG true] in
  calculateDesiredLaneMode ports Example.XG = Ok SINGLE /\
  calculateDesiredLaneMode
    (replaceLane ports 0 (Example.port 0 Example.TWENTYG false)) Example.XG
  = Ok DUAL.
Proof. split; reflexivity. Qed.

(** *** Lane placement *)

Lemma adopt_QUAD (n : LaneMode) : adopt n QUAD = n.
Proof. now destruct n. Qed.

(** Past lane 0, the loop can only end in SINGLE if it started in SINGLE
    and meets no enabled port. *)
Lemma calculateLoop_SINGLE_past_lane0 (ports : list Port)
    (maxLaneSpeed : PortSpeed) :
  forall lane d,
    0 < lane ->
    calculateLoop ports maxLaneSpeed lane d = Ok SINGLE ->
    d = SINGLE /\ forall p, In p ports -> isDisabled p = true.
Proof.
  induction ports as [|p rest IH]; intros lane d Hlane H.
  - simpl in H. injection H as ->. split; [reflexivity | intros ? []].
  - destruct (isDisabled p) eqn:Hd.
    + rewrite calculateLoop_cons, Hd in H.
      destruct (IH (lane + 1) d ltac:(lia) H) as [-> Hall].
      split; [reflexivity|]. intros q [<-|Hq]; auto.
    + exfalso.
      destruct (calculateLoop_enabled_ok _ _ _ _ _ _ Hd H)
        as (n & _ & Hc & Hrest).
      destruct (IH (lane + 1) _ ltac:(lia) Hrest) as [Had _].
      rewrite Had in Hc. unfold checkLane in Hc.
      destruct (Z.eqb_spec lane 0); [lia | discriminate].
Qed.

(** Past lane 2, the loop can only end in DUAL if it started in DUAL and
    meets no enabled port. *)
Lemma calculateLoop_DUAL_past_lane2 (ports : list Port)
    (maxLaneSpeed : PortSpeed) :
  forall lane d,
    2 < lane ->
    calculateLoop ports maxLaneSpeed lane d = Ok DUAL ->
    d = DUAL /\ forall p, In p ports -> isDisabled p = true.
Proof.
  induction ports as [|p rest IH]; intros lane d Hlane H.
  - simpl in H. injection H as ->. split; [reflexivity | intros ? []].
  - destruct (isDisabled p) eqn:Hd.
    + rewrite calculateLoop_cons, Hd in H.
      destruct (IH (lane + 1) d ltac:(lia) H) as [-> Hall].
      split; [reflexivity|]. intros q [<-|Hq]; auto.
    + exfalso.
      destruct (calculateLoop_enabled_ok _ _ _ _ _ _ Hd H)
        as (n & _ & Hc & Hrest).
      destruct (IH (lane + 1) _ ltac:(lia) Hrest) as [Had _].
      rewrite Had in Hc. unfold checkLane in Hc.
      destruct (Z.eqb_spec lane 0), (Z.eqb_spec lane 2);
        try lia; discriminate.
Qed.

(** The SINGLE half of the placement rule holds: a resolution that returns
    SINGLE has no enabled port outside lane 0. *)
Lemma calculateDesiredLaneMode_SINGLE_placement (ports : list Port)
    (maxLaneSpeed : PortSpeed) (lane : nat) (p : Port) :
  calculateDesiredLaneMode ports maxLaneSpeed = Ok SINGLE ->
  nth_error ports lane = Some p ->
  isDisabled p = false ->
  lane = 0%nat.
Proof.
  unfold calculateDesiredLaneMode. intros H Hnth Hen.
  destruct ports as [|p0 rest]; [discriminate|].
  destruct lane as [|k]; [reflexivity | exfalso].
  simpl in Hnth. apply nth_error_In in Hnth.
  assert (Hall : forall q, In q rest -> isDisabled q = true).
  { destruct (isDisabled p0) eqn:Hd.
    - rewrite calculateLoop_cons, Hd in H.
      now destruct (calculateLoop_SINGLE_past_lane0 _ _ (0 + 1) _ eq_refl H).
    - destruct (calculateLoop_enabled_ok _ _ _ _ _ _ Hd H)
        as (n & _ & _ & Hrest).
      now destruct (calculateLoop_SINGLE_past_lane0 _ _ (0 + 1) _ eq_refl Hrest). }
  rewrite (Hall p Hnth) in Hen. discriminate.
Qed.

(** So does the lane-3 part of the DUAL half. *)
Lemma calculateDesiredLaneMode_DUAL_lane3 (p0 p1 p2 p3 : Port)
    (maxLaneSpeed : PortSpeed) :
  calculateDesiredLaneMode [p0; p1; p2; p3] maxLaneSpeed = Ok DUAL ->
  isDisabled p3 = true.
Proof.
  unfold calculateDesiredLaneMode. intros H.
  assert (Hlast : exists d,
             calculateLoop [p3] maxLaneSpeed 3 d = Ok DUAL).
  { repeat match type of H with
           | calculateLoop (?p :: _ :: _) _ _ _ = _ =>
               let Hd := fresh "Hd" in
               destruct (isDisabled p) eqn:Hd;
               [ rewrite calculateLoop_cons, Hd in H
               | let n := fresh "n" in
                 destruct (calculateLoop_enabled_ok _ _ _ _ _ _ Hd H)
                   as (n & _ & _ & ?); clear H;
                 match goal with
                 | H' : calculateLoop _ _ _ _ = _ |- _ => rename H' into H
                 end ];
               simpl Z.add in H
           end; eauto. }
  destruct Hlast as [d Hd].
  destruct (calculateLoop_DUAL_past_lane2 _ _ 3 _ eq_refl Hd) as [_ Hall].
  apply Hall. now left.
Qed.

(** With lane 0 alone enabled, resolution returns whatever lane 0 needs. *)
Lemma calculateDesiredLaneMode_only_lane0 (p0 p1 p2 p3 : Port)
    (maxLaneSpeed : PortSpeed) (n : LaneMode) :
  isDisabled p0 = false ->
  isDisabled p1 = true -> isDisabled p2 = true -> isDisabled p3 = true ->
  neededLaneModeForSpeed (getSpeed p0) maxLaneSpeed = Ok n ->
  calculateDesiredLaneMode [p0; p1; p2; p3] maxLaneSpeed = Ok n.
Proof.
  intros H0 H1 H2 H3 Hn. unfold calculateDesiredLaneMode.
  rewrite calculateLoop_cons, H0, Hn. cbn [rbind]. rewrite adopt_QUAD.
  replace (checkLane n 0) with (Ok tt) by now destruct n.
  cbn [rbind]. apply calculateLoop_all_disabled.
  intros q [<-|[<-|[<-|[]]]]; assumption.
Qed.

(** With lanes 0 and 2 alone enabled and DUAL the smaller of their needs,
    resolution returns DUAL. *)
Lemma calculateDesiredLaneMode_only_lanes_0_2 (p0 p1 p2 p3 : Port)
    (maxLaneSpeed : PortSpeed) (n0 n2 : LaneMode) :
  isDisabled p0 = false -> isDisabled p2 = false ->
  isDisabled p1 = true -> isDisabled p3 = true ->
  neededLaneModeForSpeed (getSpeed p0) maxLaneSpeed = Ok n0 ->
  neededLaneModeForSpeed (getSpeed p2) maxLaneSpeed = Ok n2 ->
  adopt n2 n0 = DUAL ->
  calculateDesiredLaneMode [p0; p1; p2; p3] maxLaneSpeed = Ok DUAL.
Proof.
  intros H0 H2 H1 H3 Hn0 Hn2 Hmin. unfold calculateDesiredLaneMode.
  rewrite calculateLoop_cons, H0, Hn0. cbn [rbind]. rewrite adopt_QUAD.
  replace (checkLane n0 0) with (Ok tt) by now destruct n0.
  cbn [rbind]. rewrite calculateLoop_cons, H1.
  rewrite calculateLoop_cons, H2, Hn2. cbn [rbind]. rewrite Hmin.
  simpl. now rewrite H3.
Qed.

(** C3, the failing input.  Lanes 0 and 1 are enabled at 10G and lane 2 at
    20G, over 10G lanes: lane 1 passes its check while the running mode is
    still QUAD, lane 2 lowers the mode to DUAL, and resolution returns DUAL
    with lane 1 enabled instead of raising the placement error. *)
Theorem calculateDesiredLaneMode_DUAL_misses_lane1 :
  calculateDesiredLaneMode Example.twentyGAfterLane1 Example.XG = Ok DUAL /\
  (exists p, nth_error Example.twentyGAfterLane1 1 = Some p /\
             isDisabled p = false).
Proof.
  split; [reflexivity|]. eexists. split; reflexivity.
Qed.

(* ================================================================= *)
(** ** The snapshot pipeline and the validity check *)

Section GroupProperties.

Variable SwitchState : Type.

Local Abbreviation BcmPort := (BcmPort SwitchState).
Local Abbreviation BcmPortGroup := (BcmPortGroup SwitchState).
Local Abbreviation Machine := (Machine SwitchState).

Lemma calculateLoop_defined (ports : list Port) (maxLaneSpeed : PortSpeed) :
  uint32 maxLaneSpeed <> 0 ->
  forall lane d, calculateLoop ports maxLaneSpeed lane d <> Undefined.
Proof.
  intros Hm. induction ports as [|p rest IH]; intros lane d.
  - discriminate.
  - rewrite calculateLoop_cons. destruct (isDisabled p); [apply IH|].
    assert (Hn := neededLaneModeForSpeed_defined (getSpeed p) _ Hm).
    destruct (neededLaneModeForSpeed _ _) as [n| |]; cbn [rbind];
      [|discriminate|congruence].
    destruct (checkLane (adopt n d) lane) as [[]| |] eqn:Hc; cbn [rbind];
      [apply IH|discriminate|].
    unfold checkLane in Hc.
    repeat match type of Hc with
           | context [match ?c with _ => _ end] => destruct c
           end; discriminate.
Qed.

Lemma collectPorts_defined (bcmPorts : list BcmPort) (state : SwitchState) :
  forall ports, collectPorts bcmPorts state ports <> Undefined.
Proof.
  induction bcmPorts as [|b rest IH]; intros ports; simpl.
  - discriminate.
  - destruct (negb _); [discriminate | apply IH].
Qed.

Lemma getDesiredLaneMode_defined (g : BcmPortGroup) (state : SwitchState) :
  uint32 (maxLaneSpeed (controllingPort_ g)) <> 0 ->
  getDesiredLaneMode g state <> Undefined.
Proof.
  intros Hm. unfold getDesiredLaneMode.
  assert (Hc := collectPorts_defined (allPorts_ g) state []).
  destruct (collectPorts _ _ _) as [ports| |]; cbn [rbind];
    [|discriminate|congruence].
  now apply calculateLoop_defined.
Qed.

(** Resolution reads the members and the controlling port of the group,
    not its recorded lane mode. *)
Lemma getDesiredLaneMode_withLaneMode (g : BcmPortGroup) (mode : LaneMode)
    (state : SwitchState) :
  getDesiredLaneMode (withLaneMode g mode) state = getDesiredLaneMode g state.
Proof. reflexivity. Qed.

(** Resolution never fails with a hardware error. *)
Lemma neededLaneModeForSpeed_no_BcmError (speed maxLaneSpeed : PortSpeed)
    (c : HwCall) :
  neededLaneModeForSpeed speed maxLaneSpeed <> Throw (BcmError c).
Proof.
  unfold neededLaneModeForSpeed.
  repeat match goal with
         | |- context [if ?b then _ else _] => destruct b
         end; discriminate.
Qed.

Lemma checkLane_no_BcmError (mode : LaneMode) (lane : Z) (c : HwCall) :
  checkLane mode lane <> Throw (BcmError c).
Proof.
  unfold checkLane. destruct mode;
    repeat match goal with
           | |- context [if ?b then _ else _] => destruct b
           end; discriminate.
Qed.

Lemma calculateLoop_no_BcmError (ports : list Port)
    (maxLaneSpeed : PortSpeed) :
  forall lane d c,
    calculateLoop ports maxLaneSpeed lane d <> Throw (BcmError c).
Proof.
  induction ports as [|p rest IH]; intros lane d c.
  - discriminate.
  - rewrite calculateLoop_cons. destruct (isDisabled p); [apply IH|].
    assert (Hn := neededLaneModeForSpeed_no_BcmError
                    (getSpeed p) maxLaneSpeed c).
    destruct (neededLaneModeForSpeed _ _) as [n| |]; cbn [rbind];
      [|exact Hn|discriminate].
    assert (Hc := checkLane_no_BcmError (adopt n d) lane c).
    destruct (checkLane _ _) as [[]| |]; cbn [rbind];
      [apply IH|congruence|discriminate].
Qed.

Lemma getDesiredLaneMode_no_BcmError (g : BcmPortGroup)
    (state : SwitchState) (c : HwCall) :
  getDesiredLaneMode g state <> Throw (BcmError c).
Proof.
  unfold getDesiredLaneMode.
  assert (Hc : forall bs ports,
             collectPorts bs state ports <> Throw (BcmError c)).
  { induction bs as [|b rest IH]; intros ports; simpl.
    - discriminate.
    - destruct (negb _); [discriminate | apply IH]. }
  specialize (Hc (allPorts_ g) []).
  destruct (collectPorts _ _ _) as [ports| |]; cbn [rbind];
    [|congruence|discriminate].
  apply calculateLoop_no_BcmError.
Qed.

(** C7.  The validity check never throws.  It returns false exactly when
    the pipeline (speed-support check, then resolution) throws on the
    snapshot, and true exactly when the pipeline returns a mode; for a
    group whose controlling port has a non-zero per-lane maximum these are
    the only two cases, and the check always returns a boolean. *)
Theorem validConfiguration_spec (g : BcmPortGroup) (state : SwitchState) :
  (forall e, validConfiguration g state <> Throw e) /\
  (validConfiguration g state = Ok false <->
   exists e, getDesiredLaneMode g state = Throw e) /\
  (validConfiguration g state = Ok true <->
   exists mode, getDesiredLaneMode g state = Ok mode) /\
  (uint32 (maxLaneSpeed (controllingPort_ g)) <> 0 ->
   exists b, validConfiguration g state = Ok b).
Proof.
  assert (Hd := getDesiredLaneMode_defined g state).
  unfold validConfiguration.
  destruct (getDesiredLaneMode g state) as [mode|e|];
    repeat split; try discriminate; eauto;
    try (intros [? ?]; discriminate).
  intros Hm. exfalso. now apply Hd.
Qed.

(* ================================================================= *)
(** ** Running the monad *)

Lemma bind_inv {A B} (c : M SwitchState A) (k : A -> M SwitchState B)
    (m m' : Machine) (r : result B) :
  bind c k m = (r, m') ->
  (exists a m1, c m = (Ok a, m1) /\ k a m1 = (r, m')) \/
  (exists e, c m = (Throw e, m') /\ r = Throw e) \/
  (c m = (Undefined, m') /\ r = Undefined).
Proof.
  unfold bind. destruct (c m) as [[a|e|] m1]; intros H.
  - left. eauto.
  - injection H as <- <-. right; left. eauto.
  - injection H as <- <-. right; right. auto.
Qed.

Lemma portCallsOnly_refl (m : Machine) : portCallsOnly m m.
Proof. repeat split. Qed.

Lemma portCallsOnly_trans (m1 m2 m3 : Machine) :
  portCallsOnly m1 m2 -> portCallsOnly m2 m3 -> portCallsOnly m1 m3.
Proof.
  intros (Ha & Hb & Hc) (Ha' & Hb' & Hc'). repeat split; congruence.
Qed.

Lemma portCallsOnly_inSync (m m' : Machine) :
  portCallsOnly m m' -> inSync m -> inSync m'.
Proof.
  intros (Ha & Hb & _). unfold inSync, retrieveActiveLanes.
  now rewrite Ha, Hb.
Qed.

(** An SDK call ends normally or with the SDK's error. *)
Lemma sdkCall_result (c : HwCall) (m m' : Machine) (r : result unit) :
  sdkCall c m = (r, m') ->
  (rejects (asic m) c = true /\ r = Throw (BcmError c) /\
   m' = {| this := this m; asic := logCall c (asic m) |}) \/
  (rejects (asic m) c = false /\ r = Ok tt /\
   m' = {| this := this m; asic := effect c (logCall c (asic m)) |}).
Proof.
  unfold sdkCall. destruct (rejects (asic m) c); intros H;
    injection H as <- <-; auto.
Qed.

Lemma sdkCall_port_portCallsOnly (c : HwCall) (m m' : Machine)
    (r : result unit) :
  (forall id lanes, c <> PortControlLanes id lanes) ->
  sdkCall c m = (r, m') ->
  portCallsOnly m m' /\ (r = Ok tt \/ r = Throw (BcmError c)).
Proof.
  intros Hc H.
  destruct (sdkCall_result _ _ _ _ H) as [(_ & -> & ->)|(_ & -> & ->)].
  - split; [repeat split | now right].
  - split; [|now left].
    destruct c; try (now repeat split). exfalso. now apply (Hc bcmPortId lanes).
Qed.

Lemma disableMembers_portCallsOnly (bcmPorts : list BcmPort)
    (state : SwitchState) :
  forall m m' r,
    disableMembers bcmPorts state m = (r, m') ->
    portCallsOnly m m' /\ (r = Ok tt \/ exists c, r = Throw (BcmError c)).
Proof.
  induction bcmPorts as [|b rest IH]; intros m m' r H.
  - injection H as <- <-. split; [apply portCallsOnly_refl | now left].
  - cbn [disableMembers] in H.
    destruct (bind_inv _ _ _ _ _ H)
      as [([] & m1 & H1 & H2)|[(e & H1 & ->)|(H1 & ->)]];
      apply sdkCall_port_portCallsOnly in H1; try discriminate.
    + destruct (IH _ _ _ H2) as [Hf Hr].
      split; [eapply portCallsOnly_trans; [apply H1 | exact Hf] | exact Hr].
    + destruct H1 as [Hf [Hr|Hr]]; [discriminate|].
      split; [exact Hf | right; eauto].
    + destruct H1 as [_ [Hr|Hr]]; discriminate.
Qed.

Lemma enableMembers_portCallsOnly (bcmPorts : list BcmPort)
    (state : SwitchState) :
  forall m m' r,
    enableMembers bcmPorts state m = (r, m') ->
    portCallsOnly m m' /\ (r = Ok tt \/ exists c, r = Throw (BcmError c)).
Proof.
  induction bcmPorts as [|b rest IH]; intros m m' r H.
  - injection H as <- <-. split; [apply portCallsOnly_refl | now left].
  - cbn [enableMembers] in H.
    assert (Hstep : forall r1 m1,
               (if negb (isDisabled (getSwitchStatePort b state))
                then BcmPort_enable b (getSwitchStatePort b state)
                else ret tt) m = (r1, m1) ->
               portCallsOnly m m1 /\
               (r1 = Ok tt \/ exists c, r1 = Throw (BcmError c))).
    { intros r1 m1. destruct (negb _); intros H1.
      - apply sdkCall_port_portCallsOnly in H1; try discriminate.
        destruct H1 as [Hf [Hr|Hr]]; eauto.
      - injection H1 as <- <-. split; [apply portCallsOnly_refl | now left]. }
    destruct (bind_inv _ _ _ _ _ H)
      as [([] & m1 & H1 & H2)|[(e & H1 & ->)|(H1 & ->)]];
      apply Hstep in H1.
    + destruct (IH _ _ _ H2) as [Hf Hr].
      split; [eapply portCallsOnly_trans; [apply H1 | exact Hf] | exact Hr].
    + destruct H1 as [Hf [Hr|Hr]]; [discriminate|]. split; auto.
    + destruct H1 as [_ [Hr|[c Hr]]]; discriminate.
Qed.

(** The one place where the recorded lane mode changes: the register is
    written first, and the mode is recorded only if the write went through. *)
Lemma setActiveLanes_result (mode : LaneMode) (m m' : Machine)
    (r : result unit) :
  setActiveLanes mode m = (r, m') ->
  (rejects (asic m) (lanesCall (this m) mode) = true /\
   r = Throw (BcmError (lanesCall (this m) mode)) /\
   portCallsOnly m m') \/
  (rejects (asic m) (lanesCall (this m) mode) = false /\
   r = Ok tt /\
   this m' = withLaneMode (this m) mode /\
   rejects (asic m') = rejects (asic m) /\
   inSync m').
Proof.
  unfold setActiveLanes, bind, getThis, setLaneMode. fold (lanesCall (this m) mode).
  destruct (sdkCall _ m) as [r1 m1] eqn:H1.
  destruct (sdkCall_result _ _ _ _ H1) as [(Hrej & -> & ->)|(Hrej & -> & ->)];
    intros H; injection H as <- <-.
  - left. repeat split; auto.
  - right. repeat split; auto.
    unfold inSync, retrieveActiveLanes, lanesCall. cbn.
    unfold upd. now rewrite Z.eqb_refl.
Qed.

(** A reconfiguration either stops at or before the register write, having
    made port calls only, or gets the write through and records the mode. *)
Lemma reconfigure_result (state : SwitchState) (mode : LaneMode)
    (m m' : Machine) (r : result unit) :
  reconfigure state mode m = (r, m') ->
  (portCallsOnly m m' /\ exists c, r = Throw (BcmError c)) \/
  (rejects (asic m) (lanesCall (this m) mode) = false /\
   this m' = withLaneMode (this m) mode /\
   inSync m' /\
   (r = Ok tt \/ exists c, r = Throw (BcmError c))).
Proof.
  unfold reconfigure. intros H.
  destruct (bind_inv _ _ _ _ _ H)
    as [(g & m0 & Hg & H0)|[(e & Hg & _)|(Hg & _)]];
    try discriminate.
  injection Hg as <- <-. clear H.
  destruct (bind_inv _ _ _ _ _ H0)
    as [([] & m1 & H1 & H2)|[(e & H1 & ->)|(H1 & ->)]];
    apply disableMembers_portCallsOnly in H1;
    destruct H1 as [Hf1 Hr1].
  2:{ left. destruct Hr1 as [?|[c Hc]]; [discriminate|]. eauto. }
  2:{ destruct Hr1 as [?|[c Hc]]; discriminate. }
  clear H0 Hr1.
  destruct (bind_inv _ _ _ _ _ H2)
    as [([] & m2 & H3 & H4)|[(e & H3 & ->)|(H3 & ->)]];
    apply setActiveLanes_result in H3;
    destruct H3 as [(Hrej & Hr & Hf2)|(Hrej & Hr & Hthis & Hrejs & Hsync)];
    try discriminate.
  - apply enableMembers_portCallsOnly in H4. destruct H4 as [Hf3 Hr3].
    right. destruct Hf1 as (Ht1 & _ & Hj1). rewrite Hj1, Ht1 in Hrej.
    repeat split.
    + exact Hrej.
    + destruct Hf3 as (Ht3 & _). now rewrite Ht3, Hthis, Ht1.
    + eapply portCallsOnly_inSync; eassumption.
    + exact Hr3.
  - left. split; [eapply portCallsOnly_trans; eassumption | eauto].
Qed.

(* ================================================================= *)
(** ** [reconfigureIfNeeded] *)

Lemma reconfigureIfNeeded_unfold (state : SwitchState) (m : Machine) :
  reconfigureIfNeeded state m =
  match getDesiredLaneMode (this m) state with
  | Ok desiredLaneMode =>
      if negb (LaneMode_eqb desiredLaneMode (laneMode_ (this m)))
      then reconfigure state desiredLaneMode m
      else (Ok tt, m)
  | Throw e => (Throw e, m)
  | Undefined => (Undefined, m)
  end.
Proof.
  unfold reconfigureIfNeeded, bind, getThis, lift, ret.
  destruct (getDesiredLaneMode (this m) state); try reflexivity.
  now destruct (negb _).
Qed.

(** C6.  When computing the desired lane mode throws on the snapshot,
    [reconfigureIfNeeded] throws that same error and leaves the group object
    and the hardware exactly as they were: no SDK call is issued, no port
    state and no register changes, and the recorded lane mode stays. *)
Theorem reconfigureIfNeeded_resolution_error (state : SwitchState)
    (m : Machine) (e : FbossError) :
  getDesiredLaneMode (this m) state = Throw e ->
  reconfigureIfNeeded state m = (Throw e, m).
Proof.
  intros H. now rewrite reconfigureIfNeeded_unfold, H.
Qed.

(** C1.  When the resolved mode is the recorded one, [reconfigureIfNeeded]
    returns with the group object and the hardware untouched (no call is
    issued).  And of two calls in a row on the same snapshot at most one
    changes anything, unless the first one ended in a hardware error: after
    a first call that returns, the second is a no-op; after a first call
    that fails in resolution, the first changed nothing. *)
Theorem reconfigureIfNeeded_idempotent (state : SwitchState) (m : Machine) :
  (getDesiredLaneMode (this m) state = Ok (laneMode_ (this m)) ->
   reconfigureIfNeeded state m = (Ok tt, m)) /\
  (forall m1,
     reconfigureIfNeeded state m = (Ok tt, m1) ->
     reconfigureIfNeeded state m1 = (Ok tt, m1)) /\
  (forall r1 m1 r2 m2,
     reconfigureIfNeeded state m = (r1, m1) ->
     reconfigureIfNeeded state m1 = (r2, m2) ->
     (forall c, r1 <> Throw (BcmError c)) ->
     m1 = m \/ m2 = m1).
Proof.
  assert (Hsecond : forall m1,
             reconfigureIfNeeded state m = (Ok tt, m1) ->
             reconfigureIfNeeded state m1 = (Ok tt, m1)).
  { intros m1. rewrite !reconfigureIfNeeded_unfold.
    destruct (getDesiredLaneMode (this m) state) as [d| |] eqn:Hd;
      try discriminate.
    destruct (LaneMode_eqb d (laneMode_ (this m))) eqn:He; cbn [negb].
    - intros H. injection H as <-. now rewrite Hd, He.
    - intros H. apply reconfigure_result in H.
      destruct H as [(_ & c & Hc)|(_ & Hthis & _)]; [discriminate|].
      rewrite Hthis, getDesiredLaneMode_withLaneMode, Hd. cbn [laneMode_ withLaneMode].
      now rewrite LaneMode_eqb_refl. }
  split; [|split].
  - intros H. rewrite reconfigureIfNeeded_unfold, H.
    now rewrite LaneMode_eqb_refl.
  - exact Hsecond.
  - intros r1 m1 r2 m2 H1 H2 Hhw.
    destruct r1 as [[]|e|].
    + right. rewrite (Hsecond _ H1) in H2. now injection H2.
    + left. rewrite reconfigureIfNeeded_unfold in H1.
      destruct (getDesiredLaneMode (this m) state) as [d| |];
        [|now injection H1|discriminate].
      destruct (negb _); [|discriminate].
      apply reconfigure_result in H1.
      destruct H1 as [(_ & c & Hc)|(_ & _ & _ & [Hr|[c Hc]])];
        try discriminate; injection Hc as ->; now destruct (Hhw c).
    + left. rewrite reconfigureIfNeeded_unfold in H1.
      destruct (getDesiredLaneMode (this m) state) as [d| |];
        [|discriminate|now injection H1].
      destruct (negb _); [|discriminate].
      apply reconfigure_result in H1.
      destruct H1 as [(_ & c & Hc)|(_ & _ & _ & [Hr|[c Hc]])]; discriminate.
Qed.

(** The constructor establishes its checks and reads the mode off the
    register. *)
Lemma BcmPortGroup_ctor_ok (hw : Hw) (controllingPort : BcmPort)
    (allPorts : list BcmPort) (g : BcmPortGroup) :
  BcmPortGroup_ctor hw controllingPort allPorts = Ok g ->
  controllingPort_ g = controllingPort /\
  allPorts_ g = allPorts /\
  wellFormed g /\
  inSync {| this := g; asic := hw |}.
Proof.
  unfold BcmPortGroup_ctor, wellFormed, inSync.
  destruct (Z.eqb_spec (Z.of_nat (length allPorts)) 4) as [Hlen|];
    cbn [negb]; [|discriminate].
  destruct (checkOrdered controllingPort allPorts 0) as [[]| |] eqn:Hord;
    cbn [rbind]; try discriminate.
  cbv zeta.
  destruct (Z.eqb_spec (retrieveActiveLanes hw controllingPort) 1) as [E1|_];
    [|destruct (Z.eqb_spec (retrieveActiveLanes hw controllingPort) 2)
        as [E2|_];
      [|destruct (Z.eqb_spec (retrieveActiveLanes hw controllingPort) 4)
          as [E4|_]; [|discriminate]]];
    intros H; injection H as <-; cbn;
    (repeat split; [lia | assumption | assumption]).
Qed.

(** C2.  The recorded lane mode agrees with the lane-control register of
    the controlling port: (1) a group the constructor returns is in that
    state; (2) [reconfigureIfNeeded], the one operation that changes
    anything, keeps it however the call ends, including on a hardware
    error; (3) when a call changes the recorded mode, the register write of
    the new mode's lane count was one the SDK accepts, and the register
    holds that count afterwards. *)
Theorem laneMode_in_sync_with_hardware :
  (forall hw (controllingPort : BcmPort) allPorts (g : BcmPortGroup),
     BcmPortGroup_ctor hw controllingPort allPorts = Ok g ->
     inSync {| this := g; asic := hw |}) /\
  (forall (state : SwitchState) (m : Machine) r m',
     inSync m ->
     reconfigureIfNeeded state m = (r, m') ->
     inSync m') /\
  (forall (state : SwitchState) (m : Machine) r m',
     reconfigureIfNeeded state m = (r, m') ->
     laneMode_ (this m') <> laneMode_ (this m) ->
     rejects (asic m) (lanesCall (this m) (laneMode_ (this m'))) = false /\
     retrieveActiveLanes (asic m') (controllingPort_ (this m'))
     = activeLanesOf (laneMode_ (this m'))).
Proof.
  split; [|split].
  - intros hw c ps g H. now apply BcmPortGroup_ctor_ok in H.
  - intros state m r m' Hsync H. rewrite reconfigureIfNeeded_unfold in H.
    destruct (getDesiredLaneMode (this m) state) as [d| |];
      [|now injection H as <- <-|now injection H as <- <-].
    destruct (negb _); [|now injection H as <- <-].
    apply reconfigure_result in H.
    destruct H as [(Hf & _)|(_ & _ & Hs & _)]; [|exact Hs].
    eapply portCallsOnly_inSync; eassumption.
  - intros state m r m' H Hchg. rewrite reconfigureIfNeeded_unfold in H.
    destruct (getDesiredLaneMode (this m) state) as [d| |];
      [|injection H as <- <-; now destruct Hchg
       |injection H as <- <-; now destruct Hchg].
    destruct (negb _); [|injection H as <- <-; now destruct Hchg].
    apply reconfigure_result in H.
    destruct H as [((Ht & _) & _)|(Hrej & Hthis & Hs & _)].
    + rewrite Ht in Hchg. now destruct Hchg.
    + rewrite Hthis. cbn [laneMode_ withLaneMode]. split; [exact Hrej|].
      unfold inSync in Hs. now rewrite Hthis in Hs.
Qed.

(* ================================================================= *)
(** ** The reconfiguration sequence *)

Lemma replay_app (cs cs' : list HwCall) (hw : Hw) :
  replay (cs ++ cs') hw = replay cs' (replay cs hw).
Proof. unfold replay. apply fold_left_app. Qed.

Lemma rejects_step (c : HwCall) (hw : Hw) :
  rejects (effect c (logCall c hw)) = rejects hw.
Proof. now destruct c. Qed.

Lemma rejects_replay (cs : list HwCall) :
  forall hw, rejects (replay cs hw) = rejects hw.
Proof.
  induction cs as [|c cs IH]; intros hw; [reflexivity|].
  cbn [replay fold_left]. fold (replay cs (effect c (logCall c hw))).
  now rewrite IH, rejects_step.
Qed.

Lemma issued_replay (cs : list HwCall) :
  forall hw, issued (replay cs hw) = issued hw ++ cs.
Proof.
  induction cs as [|c cs IH]; intros hw.
  - now rewrite app_nil_r.
  - cbn [replay fold_left]. fold (replay cs (effect c (logCall c hw))).
    rewrite IH. destruct c; cbn; now rewrite <- app_assoc.
Qed.

Lemma sdkCall_accepted (c : HwCall) (m : Machine) :
  rejects (asic m) c = false ->
  sdkCall c m
  = (Ok tt, {| this := this m; asic := replay [c] (asic m) |}).
Proof. intros H. unfold sdkCall. now rewrite H. Qed.

Lemma disableMembers_accepted (bcmPorts : list BcmPort)
    (state : SwitchState) :
  forall m,
    (forall b, In b bcmPorts ->
               rejects (asic m) (PortDisable (getBcmPortId b)) = false) ->
    disableMembers bcmPorts state m
    = (Ok tt,
       {| this := this m;
          asic := replay (map (fun b => PortDisable (getBcmPortId b))
                            bcmPorts) (asic m) |}).
Proof.
  induction bcmPorts as [|b rest IH]; intros m Hacc.
  - now destruct m.
  - cbn [disableMembers map]. unfold bind, BcmPort_disable.
    rewrite sdkCall_accepted by (apply Hacc; now left).
    rewrite IH.
    + reflexivity.
    + intros b' Hb'. cbn [asic]. rewrite rejects_replay.
      apply Hacc. now right.
Qed.

Lemma enableMembers_accepted (bcmPorts : list BcmPort)
    (state : SwitchState) :
  forall m,
    (forall b, In b (enabledMembers bcmPorts state) ->
               rejects (asic m) (PortEnable (getBcmPortId b)) = false) ->
    enableMembers bcmPorts state m
    = (Ok tt,
       {| this := this m;
          asic := replay (map (fun b => PortEnable (getBcmPortId b))
                            (enabledMembers bcmPorts state)) (asic m) |}).
Proof.
  induction bcmPorts as [|b rest IH]; intros m Hacc.
  - now destruct m.
  - cbn [enableMembers enabledMembers filter] in *. unfold bind.
    fold (enabledMembers rest state) in *.
    destruct (negb (isDisabled (getSwitchStatePort b state))).
    + unfold BcmPort_enable.
      rewrite sdkCall_accepted by (apply Hacc; now left).
      rewrite IH.
      * reflexivity.
      * intros b' Hb'. cbn [asic]. rewrite rejects_replay.
        apply Hacc. now right.
    + unfold ret. now rewrite IH.
Qed.

(** With every call of the sequence accepted, a reconfiguration runs to its
    end, makes exactly the calls of [reconfigureCalls] and records the
    mode. *)
Lemma reconfigure_accepted (state : SwitchState) (mode : LaneMode)
    (m : Machine) :
  (forall c, In c (reconfigureCalls (this m) state mode) ->
             rejects (asic m) c = false) ->
  reconfigure state mode m
  = (Ok tt,
     {| this := withLaneMode (this m) mode;
        asic := replay (reconfigureCalls (this m) state mode) (asic m) |}).
Proof.
  intros Hacc. unfold reconfigure, bind at 1, getThis, bind at 1.
  rewrite disableMembers_accepted.
  2:{ intros b Hb. apply Hacc. unfold reconfigureCalls, disableCalls.
      apply in_or_app. left.
      apply (in_map (fun b => PortDisable (getBcmPortId b))), Hb. }
  unfold bind at 1, setActiveLanes, bind at 1, getThis, bind at 1.
  cbn [this asic]. fold (lanesCall (this m) mode).
  rewrite sdkCall_accepted.
  2:{ cbn [asic]. rewrite rejects_replay. apply Hacc.
      unfold reconfigureCalls. apply in_or_app. right. now left. }
  unfold setLaneMode. cbn [this asic].
  rewrite enableMembers_accepted.
  2:{ intros b Hb. cbn [asic]. rewrite !rejects_replay. apply Hacc.
      unfold reconfigureCalls, enableCalls.
      apply in_or_app. right. right.
      apply (in_map (fun b => PortEnable (getBcmPortId b))), Hb. }
  cbn [this asic]. unfold reconfigureCalls, withLaneMode.
  now rewrite !replay_app.
Qed.

(** *** The ports after the sequence *)

Lemma portEnabled_after_disables (bcmPorts : list BcmPort) (id : Z) :
  forall hw,
    portEnabled
      (replay (map (fun b => PortDisable (getBcmPortId b)) bcmPorts) hw) id
    = if existsb (fun b => id =? getBcmPortId b) bcmPorts
      then false else portEnabled hw id.
Proof.
  induction bcmPorts as [|b rest IH]; intros hw; [reflexivity|].
  cbn [map replay fold_left existsb].
  fold (replay (map (fun b => PortDisable (getBcmPortId b)) rest)
          (effect (PortDisable (getBcmPortId b))
             (logCall (PortDisable (getBcmPortId b)) hw))).
  rewrite IH. cbn. unfold upd.
  destruct (id =? getBcmPortId b); cbn;
    now destruct (existsb _ rest).
Qed.

Lemma portEnabled_after_enables (bcmPorts : list BcmPort) (id : Z) :
  forall hw,
    portEnabled
      (replay (map (fun b => PortEnable (getBcmPortId b)) bcmPorts) hw) id
    = if existsb (fun b => id =? getBcmPortId b) bcmPorts
      then true else portEnabled hw id.
Proof.
  induction bcmPorts as [|b rest IH]; intros hw; [reflexivity|].
  cbn [map replay fold_left existsb].
  fold (replay (map (fun b => PortEnable (getBcmPortId b)) rest)
          (effect (PortEnable (getBcmPortId b))
             (logCall (PortEnable (getBcmPortId b)) hw))).
  rewrite IH. cbn. unfold upd.
  destruct (id =? getBcmPortId b); cbn;
    now destruct (existsb _ rest).
Qed.

Lemma checkOrdered_lane (controllingPort : BcmPort)
    (bcmPorts : list BcmPort) :
  forall i,
    checkOrdered controllingPort bcmPorts i = Ok tt ->
    forall k b,
      nth_error bcmPorts k = Some b ->
      getLane controllingPort b = i + Z.of_nat k.
Proof.
  induction bcmPorts as [|b0 rest IH]; intros i H k b Hk.
  - destruct k; discriminate.
  - cbn [checkOrdered] in H.
    destruct (Z.eqb_spec (getLane controllingPort b0) i) as [E|];
      cbn [negb] in H; [|discriminate].
    destruct k as [|k]; cbn [nth_error] in Hk.
    + injection Hk as <-. lia.
    + rewrite (IH _ H _ _ Hk). lia.
Qed.

(** The members of a well-formed group have pairwise distinct hardware
    identifiers. *)
Lemma wellFormed_distinct (g : BcmPortGroup) (b b' : BcmPort) :
  wellFormed g ->
  In b (allPorts_ g) -> In b' (allPorts_ g) ->
  getBcmPortId b = getBcmPortId b' ->
  b = b'.
Proof.
  intros [_ Hord] Hb Hb' Hid.
  apply In_nth_error in Hb, Hb'.
  destruct Hb as [k Hk], Hb' as [k' Hk'].
  assert (E := checkOrdered_lane _ _ _ Hord _ _ Hk).
  assert (E' := checkOrdered_lane _ _ _ Hord _ _ Hk').
  unfold getLane in E, E'. rewrite Hid in E.
  assert (k = k') by lia. subst k'. congruence.
Qed.

Lemma member_found (bcmPorts : list BcmPort) (b : BcmPort) :
  In b bcmPorts ->
  existsb (fun b' => getBcmPortId b =? getBcmPortId b') bcmPorts = true.
Proof.
  intros Hb. apply existsb_exists. exists b. split; [exact Hb|].
  apply Z.eqb_refl.
Qed.

Lemma enabled_member_found (g : BcmPortGroup) (state : SwitchState)
    (b : BcmPort) :
  wellFormed g ->
  In b (allPorts_ g) ->
  existsb (fun b' => getBcmPortId b =? getBcmPortId b')
    (enabledMembers (allPorts_ g) state)
  = negb (isDisabled (getSwitchStatePort b state)).
Proof.
  intros Hwf Hb.
  destruct (negb (isDisabled (getSwitchStatePort b state))) eqn:Hen.
  - apply member_found. unfold enabledMembers.
    apply filter_In. auto.
  - destruct (existsb _ _) eqn:Hex; [|reflexivity].
    apply existsb_exists in Hex. destruct Hex as (b' & Hb' & Hid).
    unfold enabledMembers in Hb'. apply filter_In in Hb'.
    destruct Hb' as [Hin Hen'].
    apply Z.eqb_eq in Hid.
    rewrite <- (wellFormed_distinct g b b' Hwf Hb Hin Hid) in Hen'.
    congruence.
Qed.

(** Recording a lane mode keeps the group well formed. *)
Lemma wellFormed_withLaneMode (g : BcmPortGroup) (mode : LaneMode) :
  wellFormed g -> wellFormed (withLaneMode g mode).
Proof. intros H. exact H. Qed.

(** C5.  On a well-formed group, take a snapshot whose resolved mode
    [mode] differs from the recorded one, and hardware that accepts the
    calls.  Then [reconfigureIfNeeded] returns, and the calls it has issued
    are, in this order: one disable for every member, four in all, whatever
    its state in the snapshot; the write of the lane count of [mode] to the
    lane-control register of the controlling port; one enable for each
    member whose port is enabled in that same snapshot, and for no other.
    Afterwards the register holds the new count, the new mode is recorded,
    and a member is up exactly when the snapshot has it enabled: those the
    snapshot disables stay down. *)
Theorem reconfigureIfNeeded_sequence (state : SwitchState) (m : Machine)
    (mode : LaneMode) :
  wellFormed (this m) ->
  getDesiredLaneMode (this m) state = Ok mode ->
  mode <> laneMode_ (this m) ->
  (forall c, In c (reconfigureCalls (this m) state mode) ->
             rejects (asic m) c = false) ->
  exists m',
    reconfigureIfNeeded state m = (Ok tt, m') /\
    issued (asic m')
    = issued (asic m)
      ++ map (fun b => PortDisable (getBcmPortId b)) (allPorts_ (this m))
      ++ [PortControlLanes (getBcmPortId (controllingPort_ (this m)))
            (activeLanesOf mode)]
      ++ map (fun b => PortEnable (getBcmPortId b))
           (filter
              (fun b => negb (isDisabled (getSwitchStatePort b state)))
              (allPorts_ (this m))) /\
    length (allPorts_ (this m)) = 4%nat /\
    this m' = withLaneMode (this m) mode /\
    retrieveActiveLanes (asic m') (controllingPort_ (this m))
    = activeLanesOf mode /\
    (forall b, In b (allPorts_ (this m)) ->
               portEnabled (asic m') (getBcmPortId b)
               = negb (isDisabled (getSwitchStatePort b state))).
Proof.
  intros Hwf Hd Hneq Hacc.
  eexists. split.
  { rewrite reconfigureIfNeeded_unfold, Hd.
    destruct (LaneMode_eqb mode (laneMode_ (this m))) eqn:He.
    - apply LaneMode_eqb_eq in He. contradiction.
    - cbn [negb]. now apply reconfigure_accepted. }
  cbn [this asic]. repeat split.
  - now rewrite issued_replay.
  - apply Hwf.
  - unfold reconfigureCalls. rewrite !replay_app.
    unfold retrieveActiveLanes, enableCalls.
    assert (Hen : forall cs hw id,
               controlLanes
                 (replay (map (fun b : BcmPort =>
                                 PortEnable (getBcmPortId b)) cs) hw) id
               = controlLanes hw id).
    { induction cs as [|c cs IH]; intros hw id; [reflexivity|].
      cbn [map replay fold_left].
      fold (replay (map (fun b : BcmPort => PortEnable (getBcmPortId b)) cs)
              (effect (PortEnable (getBcmPortId c))
                 (logCall (PortEnable (getBcmPortId c)) hw))).
      now rewrite IH. }
    rewrite Hen. cbn. unfold upd. now rewrite Z.eqb_refl.
  - intros b Hb. unfold reconfigureCalls. rewrite !replay_app.
    unfold enableCalls. rewrite portEnabled_after_enables.
    rewrite (enabled_member_found _ state b Hwf Hb).
    destruct (negb (isDisabled (getSwitchStatePort b state)));
      [reflexivity|].
    change (portEnabled (replay [lanesCall (this m) mode]
                           (replay (disableCalls (this m)) (asic m)))
              (getBcmPortId b))
      with (portEnabled (replay (disableCalls (this m)) (asic m))
              (getBcmPortId b)).
    unfold disableCalls. rewrite portEnabled_after_disables.
    now rewrite (member_found _ b Hb).
Qed.

End GroupProperties.

(* ================================================================= *)
(** ** The properties on the example group *)

(** Scenario D of the specification: 40G on lane 1 alone is refused with a
    lane-placement error. *)
Example scenario_D_placement_error :
  exists e,
    calculateDesiredLaneMode Example.fortyGOnLane1 Example.XG = Throw e /\
    is_lane_placement_error e = true.
Proof. eexists. split; reflexivity. Qed.

(** C7 on scenario D (refused) and scenario A (accepted). *)
Lemma validConfiguration_spec_witness :
  validConfiguration (Example.group QUAD) Example.fortyGOnLane1 = Ok false /\
  validConfiguration (Example.group QUAD) Example.allTenG = Ok true /\
  (exists b, validConfiguration (Example.group QUAD) Example.allTenG = Ok b).
Proof.
  split; [|split].
  - apply (proj2 (proj1 (proj2
             (validConfiguration_spec _ (Example.group QUAD)
                Example.fortyGOnLane1)))).
    exists OnlyLane0InSingleMode. reflexivity.
  - apply (proj2 (proj1 (proj2 (proj2
             (validConfiguration_spec _ (Example.group QUAD)
                Example.allTenG))))).
    exists QUAD. reflexivity.
  - apply (proj2 (proj2 (proj2
             (validConfiguration_spec _ (Example.group QUAD)
                Example.allTenG)))).
    vm_compute. discriminate.
Defined.

(** C6 on scenario D: the placement error comes out and the machine is as
    before. *)
Lemma reconfigureIfNeeded_resolution_error_witness :
  reconfigureIfNeeded Example.fortyGOnLane1 (Example.machine QUAD)
  = (Throw OnlyLane0InSingleMode, Example.machine QUAD).
Proof.
  apply (reconfigureIfNeeded_resolution_error _ Example.fortyGOnLane1
           (Example.machine QUAD) OnlyLane0InSingleMode).
  reflexivity.
Defined.

(** C1 on scenario A (already QUAD) and on scenario B called twice. *)
Lemma reconfigureIfNeeded_idempotent_witness :
  reconfigureIfNeeded Example.allTenG (Example.machine QUAD)
  = (Ok tt, Example.machine QUAD) /\
  reconfigureIfNeeded Example.oneFortyG Example.afterOneFortyG
  = (Ok tt, Example.afterOneFortyG) /\
  (Example.afterOneFortyG = Example.machine QUAD \/ Example.afterOneFortyG = Example.afterOneFortyG).
Proof.
  split; [|split].
  - apply (proj1 (reconfigureIfNeeded_idempotent _ Example.allTenG
                    (Example.machine QUAD))).
    reflexivity.
  - apply (proj1 (proj2 (reconfigureIfNeeded_idempotent _ Example.oneFortyG
                           (Example.machine QUAD)))).
    reflexivity.
  - apply (proj2 (proj2 (reconfigureIfNeeded_idempotent _ Example.oneFortyG
                           (Example.machine QUAD)))
             (Ok tt) Example.afterOneFortyG (Ok tt) Example.afterOneFortyG).
    + reflexivity.
    + reflexivity.
    + discriminate.
Defined.

(** C2 on a group built over a chip with four active lanes, and on the
    change from QUAD to SINGLE of scenario B. *)
Lemma laneMode_in_sync_with_hardware_witness :
  inSync {| this := Example.group SINGLE; asic := Example.chip 4 |} /\
  inSync Example.afterOneFortyG /\
  rejects (Example.chip 1) (lanesCall (Example.group QUAD) SINGLE) = false /\
  retrieveActiveLanes (asic Example.afterOneFortyG) (Example.bcmPort 0) = 4.
Proof.
  destruct (laneMode_in_sync_with_hardware Example.Snapshot)
    as (Hctor & Hkeep & Hwrite).
  split; [|split].
  - apply (Hctor (Example.chip 4) (Example.bcmPort 0) Example.members).
    reflexivity.
  - apply (Hkeep Example.oneFortyG (Example.machine QUAD) (Ok tt)).
    + reflexivity.
    + reflexivity.
  - apply (Hwrite Example.oneFortyG (Example.machine QUAD) (Ok tt)
             Example.afterOneFortyG).
    + reflexivity.
    + discriminate.
Defined.

(** C5 on scenario B: all four ports go down, the register is set to four
    lanes, and lane 0 alone comes back up. *)
Lemma reconfigureIfNeeded_sequence_witness :
  exists m',
    reconfigureIfNeeded Example.oneFortyG (Example.machine QUAD)
    = (Ok tt, m') /\
    issued (asic m')
    = [PortDisable 1; PortDisable 2; PortDisable 3; PortDisable 4;
       PortControlLanes 1 4; PortEnable 1] /\
    laneMode_ (this m') = SINGLE /\
    map (portEnabled (asic m')) [1; 2; 3; 4] = [true; false; false; false].
Proof.
  destruct (reconfigureIfNeeded_sequence _ Example.oneFortyG
              (Example.machine QUAD) SINGLE)
    as (m' & Hrun & Hcalls & _ & Hthis & _ & Hports).
  - split; reflexivity.
  - reflexivity.
  - discriminate.
  - intros c _. reflexivity.
  - exists m'. split; [exact Hrun|]. split; [exact Hcalls|].
    split; [now rewrite Hthis|].
    assert (H0 := Hports (Example.bcmPort 0) ltac:(simpl; auto)).
    assert (H1 := Hports (Example.bcmPort 1) ltac:(simpl; auto)).
    assert (H2 := Hports (Example.bcmPort 2) ltac:(simpl; auto)).
    assert (H3 := Hports (Example.bcmPort 3) ltac:(simpl; auto 6)).
    cbn in H0, H1, H2, H3. cbn [map].
    now rewrite H0, H1, H2, H3.
Defined.

(* ================================================================= *)
(** * Further properties of the resolution *)

(** ** [neededLaneModeForSpeed] *)

(** What a returned mode tells about the two speeds. *)
Lemma neededLaneModeForSpeed_ok_inv (speed maxLaneSpeed : PortSpeed)
    (n : LaneMode) :
  neededLaneModeForSpeed speed maxLaneSpeed = Ok n ->
  speed <> DEFAULT /\
  0 < uint32 maxLaneSpeed /\
  uint32 speed / uint32 maxLaneSpeed <= 4 /\
  (n = QUAD <-> uint32 speed / uint32 maxLaneSpeed <= 1) /\
  (n = DUAL <-> uint32 speed / uint32 maxLaneSpeed = 2).
Proof.
  unfold neededLaneModeForSpeed.
  destruct (Z.eqb_spec speed DEFAULT); [discriminate|].
  destruct (Z.eqb_spec (uint32 maxLaneSpeed) 0); [discriminate|].
  assert (Hr := uint32_range maxLaneSpeed).
  cbv zeta.
  destruct (Z.leb_spec (uint32 speed / uint32 maxLaneSpeed) 1);
    [|destruct (Z.eqb_spec (uint32 speed / uint32 maxLaneSpeed) 2);
      [|destruct (Z.ltb_spec 2 (uint32 speed / uint32 maxLaneSpeed));
        destruct (Z.leb_spec (uint32 speed / uint32 maxLaneSpeed) 4);
        cbn [andb]]];
    intros Hres; try discriminate; injection Hres as <-;
    repeat split; try lia; try discriminate; intros; lia.
Qed.

(** X1.  The requirement is antitone in the speed: over the same lanes, a port
    that is at least as fast needs a mode that is at least as
    lane-demanding. *)
Theorem neededLaneModeForSpeed_antitone (speed speed' maxLaneSpeed : PortSpeed)
    (n n' : LaneMode) :
  uint32 speed <= uint32 speed' ->
  neededLaneModeForSpeed speed maxLaneSpeed = Ok n ->
  neededLaneModeForSpeed speed' maxLaneSpeed = Ok n' ->
  LaneMode_le n' n.
Proof.
  intros Hle H H'.
  apply neededLaneModeForSpeed_ok_inv in H, H'.
  destruct H as (_ & Hm & H4 & HQ & HD), H' as (_ & _ & H4' & HQ' & HD').
  assert (Hq : uint32 speed / uint32 maxLaneSpeed
               <= uint32 speed' / uint32 maxLaneSpeed)
    by (apply Z.div_le_mono; lia).
  unfold LaneMode_le.
  destruct n, n'; cbn [rank]; try lia; exfalso.
  - (* n = SINGLE, n' = DUAL *)
    assert (uint32 speed' / uint32 maxLaneSpeed = 2) by (now apply HD').
    assert (~ uint32 speed / uint32 maxLaneSpeed <= 1)
      by (intros E; apply HQ in E; discriminate).
    assert (uint32 speed / uint32 maxLaneSpeed <> 2)
      by (intros E; apply HD in E; discriminate).
    lia.
  - (* n = SINGLE, n' = QUAD *)
    assert (uint32 speed' / uint32 maxLaneSpeed <= 1) by (now apply HQ').
    assert (~ uint32 speed / uint32 maxLaneSpeed <= 1)
      by (intros E; apply HQ in E; discriminate).
    lia.
  - (* n = DUAL, n' = QUAD *)
    assert (uint32 speed' / uint32 maxLaneSpeed <= 1) by (now apply HQ').
    assert (uint32 speed / uint32 maxLaneSpeed = 2) by (now apply HD).
    lia.
Qed.

(** 20G and 40G over 10G lanes. *)
Lemma neededLaneModeForSpeed_antitone_witness : LaneMode_le SINGLE DUAL.
Proof.
  apply (neededLaneModeForSpeed_antitone 20000 40000 10000 DUAL SINGLE).
  - vm_compute. discriminate.
  - reflexivity.
  - reflexivity.
Defined.

(** ** [calculateDesiredLaneMode] *)

Lemma adopt_le_l (n d : LaneMode) : LaneMode_le (adopt n d) n.
Proof.
  unfold adopt, LaneMode_ltb, LaneMode_le.
  destruct (Z.ltb_spec (rank n) (rank d)); lia.
Qed.

Lemma adopt_cases (n d : LaneMode) : adopt n d = n \/ adopt n d = d.
Proof. unfold adopt. destruct (LaneMode_ltb n d); auto. Qed.

(** A successful loop has computed every enabled port's need, ends at or
    below each of them, and ends either where it started or at the need of
    one of the enabled ports. *)
Lemma calculateLoop_ok_needs (ports : list Port) (maxLaneSpeed : PortSpeed) :
  forall lane d m,
    calculateLoop ports maxLaneSpeed lane d = Ok m ->
    (forall p, In p ports -> isDisabled p = false ->
       exists n, neededLaneModeForSpeed (getSpeed p) maxLaneSpeed = Ok n /\
                 LaneMode_le m n) /\
    (m = d \/
     exists p, In p ports /\ isDisabled p = false /\
               neededLaneModeForSpeed (getSpeed p) maxLaneSpeed = Ok m).
Proof.
  induction ports as [|p0 rest IH]; intros lane d m H.
  - simpl in H. injection H as <-. split; [intros ? []|now left].
  - destruct (isDisabled p0) eqn:Hd.
    + rewrite calculateLoop_cons, Hd in H.
      destruct (IH _ _ _ H) as [Hall Hatt]. split.
      * intros p [<-|Hp] Hen; [congruence | auto].
      * destruct Hatt as [->|(p & Hp & Hen & Hn)]; [now left|].
        right. exists p. simpl. auto.
    + destruct (calculateLoop_enabled_ok _ _ _ _ _ _ Hd H)
        as (n & Hn & _ & Hrest).
      destruct (IH _ _ _ Hrest) as [Hall Hatt]. split.
      * intros p [<-|Hp] Hen; [|auto].
        exists n. split; [exact Hn|].
        eapply LaneMode_le_trans;
          [eapply calculateLoop_le_start, Hrest | apply adopt_le_l].
      * destruct Hatt as [->|(p & Hp & Hen & Hnp)].
        -- destruct (adopt_cases n d) as [->| ->]; [|now left].
           right. exists p0. simpl. auto.
        -- right. exists p. simpl. auto.
Qed.

(** X2.  A successful resolution returns the most lane-demanding of the enabled
    ports' requirements (QUAD when no port is enabled): every enabled port's
    requirement has been computed and is no more demanding than the result,
    and the result is QUAD or the requirement of an enabled port. *)
Theorem calculateDesiredLaneMode_most_demanding (ports : list Port)
    (maxLaneSpeed : PortSpeed) (m : LaneMode) :
  calculateDesiredLaneMode ports maxLaneSpeed = Ok m ->
  (forall p, In p ports -> isDisabled p = false ->
     exists n, neededLaneModeForSpeed (getSpeed p) maxLaneSpeed = Ok n /\
               LaneMode_le m n) /\
  (m = QUAD \/
   exists p, In p ports /\ isDisabled p = false /\
             neededLaneModeForSpeed (getSpeed p) maxLaneSpeed = Ok m).
Proof. apply calculateLoop_ok_needs. Qed.

(** Scenario C of the specification: 20G on lanes 0 and 2. *)
Lemma calculateDesiredLaneMode_most_demanding_witness :
  (forall p, In p Example.twoTwentyG -> isDisabled p = false ->
     exists n, neededLaneModeForSpeed (getSpeed p) Example.XG = Ok n /\
               LaneMode_le DUAL n) /\
  (DUAL = QUAD \/
   exists p, In p Example.twoTwentyG /\ isDisabled p = false /\
             neededLaneModeForSpeed (getSpeed p) Example.XG = Ok DUAL).
Proof.
  apply (calculateDesiredLaneMode_most_demanding Example.twoTwentyG
           Example.XG DUAL).
  reflexivity.
Defined.

(** X3.  A successful resolution certifies every enabled port's speed: it is not
    the sentinel, the per-lane maximum is not zero, and the speed is below
    five times the per-lane maximum, so that four lanes carry it. *)
Theorem calculateDesiredLaneMode_ok_speeds (ports : list Port)
    (maxLaneSpeed : PortSpeed) (m : LaneMode) (p : Port) :
  calculateDesiredLaneMode ports maxLaneSpeed = Ok m ->
  In p ports -> isDisabled p = false ->
  getSpeed p <> DEFAULT /\
  0 < uint32 maxLaneSpeed /\
  uint32 (getSpeed p) < 5 * uint32 maxLaneSpeed.
Proof.
  intros H Hp Hen.
  destruct (proj1 (calculateLoop_ok_needs _ _ _ _ _ H) p Hp Hen)
    as (n & Hn & _).
  apply neededLaneModeForSpeed_ok_inv in Hn.
  destruct Hn as (Hs & Hm & H4 & _). repeat split; try assumption.
  destruct (Z.lt_ge_cases (uint32 (getSpeed p)) (5 * uint32 maxLaneSpeed))
    as [|Hge]; [assumption|exfalso].
  assert (5 <= uint32 (getSpeed p) / uint32 maxLaneSpeed)
    by (apply Z.div_le_lower_bound; lia).
  lia.
Qed.

(** Scenario B: the 40G port on lane 0. *)
Lemma calculateDesiredLaneMode_ok_speeds_witness :
  Example.FORTYG <> DEFAULT /\
  0 < uint32 Example.XG /\
  uint32 Example.FORTYG < 5 * uint32 Example.XG.
Proof.
  apply (calculateDesiredLaneMode_ok_speeds Example.oneFortyG Example.XG
           SINGLE (Example.port 0 Example.FORTYG false)).
  - reflexivity.
  - now left.
  - reflexivity.
Defined.

Lemma calculateLoop_all_QUAD (ports : list Port) (maxLaneSpeed : PortSpeed) :
  (forall p, In p ports -> isDisabled p = false ->
     neededLaneModeForSpeed (getSpeed p) maxLaneSpeed = Ok QUAD) ->
  forall lane, calculateLoop ports maxLaneSpeed lane QUAD = Ok QUAD.
Proof.
  induction ports as [|p rest IH]; intros Hall lane; [reflexivity|].
  rewrite calculateLoop_cons.
  destruct (isDisabled p) eqn:Hd.
  - apply IH. intros q Hq. apply Hall. now right.
  - rewrite (Hall p (or_introl eq_refl) Hd). cbn [rbind adopt checkLane].
    apply IH. intros q Hq. apply Hall. now right.
Qed.

(** X4.  Resolution returns QUAD exactly when every enabled port needs QUAD; in
    that case any set of lanes may be enabled. *)
Theorem calculateDesiredLaneMode_QUAD_iff (ports : list Port)
    (maxLaneSpeed : PortSpeed) :
  calculateDesiredLaneMode ports maxLaneSpeed = Ok QUAD <->
  (forall p, In p ports -> isDisabled p = false ->
     neededLaneModeForSpeed (getSpeed p) maxLaneSpeed = Ok QUAD).
Proof.
  split.
  - intros H p Hp Hen.
    destruct (proj1 (calculateLoop_ok_needs _ _ _ _ _ H) p Hp Hen)
      as (n & Hn & Hle).
    rewrite Hn. f_equal.
    destruct n; unfold LaneMode_le in Hle; cbn in Hle; (reflexivity || lia).
  - intros Hall. now apply calculateLoop_all_QUAD.
Qed.

(** X7.  Resolution reads of a port its enabled flag and, when enabled, its
    speed, and nothing else: two port vectors that agree on these give the
    same outcome, errors included. *)
Theorem calculateDesiredLaneMode_reads_enabled_speeds
    (ports ports' : list Port) (maxLaneSpeed : PortSpeed) :
  Forall2 (fun p p' =>
             isDisabled p = isDisabled p' /\
             (isDisabled p = false -> getSpeed p = getSpeed p'))
    ports ports' ->
  calculateDesiredLaneMode ports maxLaneSpeed
  = calculateDesiredLaneMode ports' maxLaneSpeed.
Proof.
  unfold calculateDesiredLaneMode. generalize 0 QUAD.
  intros lane d H. revert lane d.
  induction H as [|p p' rest rest' [Hd Hs] _ IH]; intros lane d;
    [reflexivity|].
  rewrite !calculateLoop_cons, <- Hd.
  destruct (isDisabled p); [apply IH|].
  rewrite <- (Hs eq_refl).
  destruct (neededLaneModeForSpeed _ _) as [n| |]; cbn [rbind];
    try reflexivity.
  destruct (checkLane _ _) as [[]| |]; cbn [rbind]; try reflexivity.
  apply IH.
Qed.

(** Scenario B with other speeds and identifiers on its disabled lanes. *)
Lemma calculateDesiredLaneMode_reads_enabled_speeds_witness :
  calculateDesiredLaneMode Example.oneFortyG Example.XG
  = calculateDesiredLaneMode
      [Example.port 0 Example.FORTYG false; Example.port 7 DEFAULT true;
       Example.port 8 Example.FORTYG true; Example.port 9 1 true]
      Example.XG.
Proof.
  apply (calculateDesiredLaneMode_reads_enabled_speeds Example.oneFortyG).
  repeat constructor; discriminate.
Defined.

(** X5.  Resolution returns SINGLE exactly when lane 0 is enabled and needs
    SINGLE and every other lane is disabled. *)
Theorem calculateDesiredLaneMode_SINGLE_iff (ports : list Port)
    (maxLaneSpeed : PortSpeed) :
  calculateDesiredLaneMode ports maxLaneSpeed = Ok SINGLE <->
  exists p0 rest,
    ports = p0 :: rest /\
    isDisabled p0 = false /\
    neededLaneModeForSpeed (getSpeed p0) maxLaneSpeed = Ok SINGLE /\
    (forall q, In q rest -> isDisabled q = true).
Proof.
  unfold calculateDesiredLaneMode. split.
  - intros H. destruct ports as [|p0 rest]; [discriminate|].
    exists p0, rest. split; [reflexivity|].
    destruct (isDisabled p0) eqn:Hd.
    + rewrite calculateLoop_cons, Hd in H.
      destruct (calculateLoop_SINGLE_past_lane0 _ _ (0 + 1) _ eq_refl H).
      discriminate.
    + destruct (calculateLoop_enabled_ok _ _ _ _ _ _ Hd H)
        as (n & Hn & _ & Hrest).
      destruct (calculateLoop_SINGLE_past_lane0 _ _ (0 + 1) _ eq_refl Hrest)
        as [Had Hall].
      rewrite adopt_QUAD in Had. subst n. auto.
  - intros (p0 & rest & -> & Hd & Hn & Hall).
    rewrite calculateLoop_cons, Hd, Hn. cbn [rbind adopt checkLane].
    cbn. now apply calculateLoop_all_disabled.
Qed.

(** X6.  What a DUAL result over four lanes allows: lane 3 is disabled; and
    lane 1 can only be enabled in the one situation the lane check misses,
    where lane 1 itself needs QUAD, lane 2 is enabled and needs DUAL, and
    lane 0 is disabled or needs QUAD. *)
Theorem calculateDesiredLaneMode_DUAL_lanes (p0 p1 p2 p3 : Port)
    (maxLaneSpeed : PortSpeed) :
  calculateDesiredLaneMode [p0; p1; p2; p3] maxLaneSpeed = Ok DUAL ->
  isDisabled p3 = true /\
  (isDisabled p1 = false ->
   neededLaneModeForSpeed (getSpeed p1) maxLaneSpeed = Ok QUAD /\
   isDisabled p2 = false /\
   neededLaneModeForSpeed (getSpeed p2) maxLaneSpeed = Ok DUAL /\
   (isDisabled p0 = true \/
    neededLaneModeForSpeed (getSpeed p0) maxLaneSpeed = Ok QUAD)).
Proof.
  unfold calculateDesiredLaneMode.
  rewrite !calculateLoop_cons. cbn [calculateLoop].
  destruct (isDisabled p0);
    [|destruct (neededLaneModeForSpeed (getSpeed p0) maxLaneSpeed)
        as [[]| |]; cbn; try discriminate];
    (destruct (isDisabled p1);
     [|destruct (neededLaneModeForSpeed (getSpeed p1) maxLaneSpeed)
         as [[]| |]; cbn; try discriminate]);
    (destruct (isDisabled p2);
     [|destruct (neededLaneModeForSpeed (getSpeed p2) maxLaneSpeed)
         as [[]| |]; cbn; try discriminate]);
    (destruct (isDisabled p3);
     [|destruct (neededLaneModeForSpeed (getSpeed p3) maxLaneSpeed)
         as [[]| |]; cbn; try discriminate]);
    cbn; intros H; try discriminate;
    (split; [reflexivity|]); intros Hen; try discriminate; auto.
Qed.

(** The configuration with lanes 0 and 1 at 10G and lane 2 at 20G. *)
Lemma calculateDesiredLaneMode_DUAL_lanes_witness :
  isDisabled (Example.port 3 Example.XG true) = true /\
  (isDisabled (Example.port 1 Example.XG false) = false ->
   neededLaneModeForSpeed Example.XG Example.XG = Ok QUAD /\
   isDisabled (Example.port 2 Example.TWENTYG false) = false /\
   neededLaneModeForSpeed Example.TWENTYG Example.XG = Ok DUAL /\
   (isDisabled (Example.port 0 Example.XG false) = true \/
    neededLaneModeForSpeed Example.XG Example.XG = Ok QUAD)).
Proof.
  apply (calculateDesiredLaneMode_DUAL_lanes
           (Example.port 0 Example.XG false)
           (Example.port 1 Example.XG false)
           (Example.port 2 Example.TWENTYG false)
           (Example.port 3 Example.XG true) Example.XG).
  reflexivity.
Defined.

(** Scenario A: four 10G ports. *)
Lemma calculateDesiredLaneMode_QUAD_iff_witness :
  calculateDesiredLaneMode Example.allTenG Example.XG = Ok QUAD.
Proof.
  apply (proj2 (calculateDesiredLaneMode_QUAD_iff Example.allTenG
                  Example.XG)).
  intros p [<-|[<-|[<-|[<-|[]]]]] _; reflexivity.
Defined.

(** Scenario B. *)
Lemma calculateDesiredLaneMode_SINGLE_iff_witness :
  calculateDesiredLaneMode Example.oneFortyG Example.XG = Ok SINGLE.
Proof.
  apply (proj2 (calculateDesiredLaneMode_SINGLE_iff Example.oneFortyG
                  Example.XG)).
  do 2 eexists. split; [reflexivity|]. split; [reflexivity|].
  split; [reflexivity|].
  intros q [<-|[<-|[<-|[]]]]; reflexivity.
Defined.

(* ================================================================= *)
(** * Further properties of the group *)

Section MoreGroupProperties.

Variable SwitchState : Type.

Local Abbreviation BcmPort := (BcmPort SwitchState).
Local Abbreviation BcmPortGroup := (BcmPortGroup SwitchState).
Local Abbreviation Machine := (Machine SwitchState).

(** ** The speed-support check of [getDesiredLaneMode] *)

Lemma collectPorts_supported (bcmPorts : list BcmPort) (state : SwitchState) :
  (forall b, In b bcmPorts ->
     supportsSpeed b (getSpeed (getSwitchStatePort b state)) = true) ->
  forall ports,
    collectPorts bcmPorts state ports
    = Ok (ports ++ map (fun b => getSwitchStatePort b state) bcmPorts).
Proof.
  induction bcmPorts as [|b rest IH]; intros Hall ports.
  - cbn. now rewrite app_nil_r.
  - cbn [collectPorts map]. rewrite (Hall b (or_introl eq_refl)).
    cbn [negb]. rewrite IH by (intros b' Hb'; apply Hall; now right).
    now rewrite <- app_assoc.
Qed.

Lemma collectPorts_first_unsupported (before after : list BcmPort)
    (b : BcmPort) (state : SwitchState) :
  (forall b', In b' before ->
     supportsSpeed b' (getSpeed (getSwitchStatePort b' state)) = true) ->
  supportsSpeed b (getSpeed (getSwitchStatePort b state)) = false ->
  forall ports,
    collectPorts (before ++ b :: after) state ports
    = Throw (PortDoesNotSupportSpeed (getID (getSwitchStatePort b state))
               (getSpeed (getSwitchStatePort b state))).
Proof.
  induction before as [|b0 rest IH]; intros Hall Hb ports.
  - cbn. now rewrite Hb.
  - cbn [app collectPorts]. rewrite (Hall b0 (or_introl eq_refl)).
    cbn [negb]. apply IH; [|exact Hb].
    intros b' Hb'. apply Hall. now right.
Qed.

Lemma collectPorts_some_unsupported (bcmPorts : list BcmPort)
    (state : SwitchState) :
  forallb (fun b => supportsSpeed b (getSpeed (getSwitchStatePort b state)))
    bcmPorts = false ->
  forall ports, exists e, collectPorts bcmPorts state ports = Throw e.
Proof.
  induction bcmPorts as [|b rest IH]; intros H ports; [discriminate|].
  cbn [forallb collectPorts] in *.
  destruct (supportsSpeed b _); cbn [negb andb] in *; eauto.
Qed.

(** X8.  When every member supports the speed its port has in the snapshot,
    [getDesiredLaneMode] is the resolution over the members' snapshot
    ports, in member order, against the controlling port's per-lane
    maximum (the other members' own maxima are not consulted). *)
Theorem getDesiredLaneMode_supported (g : BcmPortGroup)
    (state : SwitchState) :
  (forall b, In b (allPorts_ g) ->
     supportsSpeed b (getSpeed (getSwitchStatePort b state)) = true) ->
  getDesiredLaneMode g state
  = calculateDesiredLaneMode
      (map (fun b => getSwitchStatePort b state) (allPorts_ g))
      (maxLaneSpeed (controllingPort_ g)).
Proof.
  intros Hall. unfold getDesiredLaneMode.
  now rewrite collectPorts_supported.
Qed.

(** X9.  The speed-support check comes first and looks at disabled ports too:
    the first member, in lane order, whose snapshot speed it does not
    support makes [getDesiredLaneMode] throw for that port, whatever the
    enabled flags and whatever the lane computation would have given. *)
Theorem getDesiredLaneMode_first_unsupported (g : BcmPortGroup)
    (state : SwitchState) (before after : list BcmPort) (b : BcmPort) :
  allPorts_ g = before ++ b :: after ->
  (forall b', In b' before ->
     supportsSpeed b' (getSpeed (getSwitchStatePort b' state)) = true) ->
  supportsSpeed b (getSpeed (getSwitchStatePort b state)) = false ->
  getDesiredLaneMode g state
  = Throw (PortDoesNotSupportSpeed (getID (getSwitchStatePort b state))
             (getSpeed (getSwitchStatePort b state))).
Proof.
  intros Hsplit Hbefore Hb. unfold getDesiredLaneMode.
  now rewrite Hsplit, collectPorts_first_unsupported.
Qed.

(** X10.  A snapshot that disables every member is valid exactly when every
    member supports its configured speed: disabled ports are exempt from
    the lane rules but not from the speed-support check. *)
Theorem validConfiguration_all_disabled (g : BcmPortGroup)
    (state : SwitchState) :
  (forall b, In b (allPorts_ g) ->
     isDisabled (getSwitchStatePort b state) = true) ->
  validConfiguration g state
  = Ok (forallb
          (fun b => supportsSpeed b (getSpeed (getSwitchStatePort b state)))
          (allPorts_ g)).
Proof.
  intros Hdis. unfold validConfiguration.
  destruct (forallb _ (allPorts_ g)) eqn:Hf.
  - unfold getDesiredLaneMode. rewrite collectPorts_supported.
    + cbn [rbind app]. unfold calculateDesiredLaneMode.
      rewrite calculateLoop_all_disabled; [reflexivity|].
      intros p Hp. apply in_map_iff in Hp.
      destruct Hp as (b & <- & Hb). now apply Hdis.
    + intros b Hb. rewrite forallb_forall in Hf. now apply Hf.
  - unfold getDesiredLaneMode.
    destruct (collectPorts_some_unsupported _ _ Hf []) as [e ->].
    reflexivity.
Qed.

(** C8, as amended.  Take a configuration in which every member port is
    disabled.  The lane resolution [calculateDesiredLaneMode] succeeds with
    QUAD whatever the configured speeds.  Resolution over a snapshot,
    [getDesiredLaneMode], yields QUAD when in addition every member
    supports the speed configured for its port; otherwise it throws the
    unsupported-speed error of the first member, in lane order, that does
    not: the speed-support check is made even if the port is disabled. *)
Theorem all_disabled_resolution :
  (forall (ports : list Port) (maxLaneSpeed : PortSpeed),
     (forall p, In p ports -> isDisabled p = true) ->
     calculateDesiredLaneMode ports maxLaneSpeed = Ok QUAD) /\
  (forall (g : BcmPortGroup) (state : SwitchState),
     (forall b, In b (allPorts_ g) ->
        isDisabled (getSwitchStatePort b state) = true) ->
     ((forall b, In b (allPorts_ g) ->
         supportsSpeed b (getSpeed (getSwitchStatePort b state)) = true) ->
      getDesiredLaneMode g state = Ok QUAD) /\
     (forall (before after : list BcmPort) (b : BcmPort),
        allPorts_ g = before ++ b :: after ->
        (forall b', In b' before ->
           supportsSpeed b' (getSpeed (getSwitchStatePort b' state))
           = true) ->
        supportsSpeed b (getSpeed (getSwitchStatePort b state)) = false ->
        getDesiredLaneMode g state
        = Throw (PortDoesNotSupportSpeed
                   (getID (getSwitchStatePort b state))
                   (getSpeed (getSwitchStatePort b state))))).
Proof.
  split.
  - intros ports maxLaneSpeed Hdis. unfold calculateDesiredLaneMode.
    now apply calculateLoop_all_disabled.
  - intros g state Hdis. split.
    + intros Hsup. unfold getDesiredLaneMode.
      rewrite collectPorts_supported by exact Hsup.
      cbn [rbind app]. unfold calculateDesiredLaneMode.
      apply calculateLoop_all_disabled.
      intros p Hp. apply in_map_iff in Hp.
      destruct Hp as (b & <- & Hb). now apply Hdis.
    + intros before after b Hsplit Hbefore Hb. unfold getDesiredLaneMode.
      rewrite Hsplit, collectPorts_first_unsupported by assumption.
      reflexivity.
Qed.

(** ** The constructor *)

Lemma checkOrdered_cases (controllingPort : BcmPort)
    (bcmPorts : list BcmPort) :
  forall i,
    checkOrdered controllingPort bcmPorts i = Ok tt \/
    checkOrdered controllingPort bcmPorts i = Throw NotOrderedByLane.
Proof.
  induction bcmPorts as [|b rest IH]; intros i; cbn [checkOrdered].
  - now left.
  - destruct (negb _); [now right | apply IH].
Qed.

Lemma checkOrdered_complete (controllingPort : BcmPort)
    (bcmPorts : list BcmPort) :
  forall i,
    (forall k b, nth_error bcmPorts k = Some b ->
                 getLane controllingPort b = i + Z.of_nat k) ->
    checkOrdered controllingPort bcmPorts i = Ok tt.
Proof.
  induction bcmPorts as [|b0 rest IH]; intros i H; cbn [checkOrdered].
  - reflexivity.
  - rewrite (H 0%nat b0 eq_refl). cbn [Z.of_nat].
    rewrite Z.add_0_r, Z.eqb_refl. cbn [negb].
    apply IH. intros k b Hk. rewrite (H (S k) b Hk). lia.
Qed.

(** The lane check of the constructor, as a property of the members. *)
Lemma checkOrdered_iff (controllingPort : BcmPort)
    (bcmPorts : list BcmPort) :
  checkOrdered controllingPort bcmPorts 0 = Ok tt <->
  (forall k b, nth_error bcmPorts k = Some b ->
               getLane controllingPort b = Z.of_nat k).
Proof.
  split.
  - intros H k b Hk. now rewrite (checkOrdered_lane _ _ _ _ H _ _ Hk).
  - intros H. apply checkOrdered_complete. exact H.
Qed.

(** On hardware in agreement with a well-formed group object, the
    constructor rebuilds that object. *)
Lemma BcmPortGroup_ctor_of_inSync (m : Machine) :
  wellFormed (this m) -> inSync m ->
  BcmPortGroup_ctor (asic m) (controllingPort_ (this m))
    (allPorts_ (this m))
  = Ok (this m).
Proof.
  intros [Hlen Hord] Hsync. unfold BcmPortGroup_ctor, inSync in *.
  rewrite Hlen, Hord. cbn [Z.of_nat Z.eqb Pos.eqb Pos.of_succ_nat Pos.succ
                             negb rbind].
  cbv zeta. rewrite Hsync.
  destruct m as [[c ps mode] hw]. cbn [this laneMode_ controllingPort_
                                         allPorts_].
  now destruct mode.
Qed.

(** X11.  The constructor returns a group exactly when it is given four members,
    the member at index [k] has lane offset [k] from the controlling port
    (the difference of the hardware identifiers, truncated to 8 bits), and
    the hardware reports 1, 2 or 4 active lanes; the group then holds the
    arguments and records QUAD, DUAL or SINGLE respectively. *)
Theorem BcmPortGroup_ctor_ok_iff (hw : Hw) (controllingPort : BcmPort)
    (allPorts : list BcmPort) (g : BcmPortGroup) :
  BcmPortGroup_ctor hw controllingPort allPorts = Ok g <->
  length allPorts = 4%nat /\
  (forall k b, nth_error allPorts k = Some b ->
               getLane controllingPort b = Z.of_nat k) /\
  exists mode,
    retrieveActiveLanes hw controllingPort = activeLanesOf mode /\
    g = {| controllingPort_ := controllingPort;
           allPorts_ := allPorts;
           laneMode_ := mode |}.
Proof.
  split.
  - intros H.
    destruct (BcmPortGroup_ctor_ok _ _ _ _ _ H) as (Hc & Hp & [Hlen Hord] & Hs).
    rewrite Hp in Hlen. rewrite Hc, Hp in Hord.
    split; [exact Hlen|]. split; [now apply checkOrdered_iff|].
    exists (laneMode_ g). unfold inSync in Hs. cbn [this asic] in Hs.
    rewrite Hc in Hs. split; [exact Hs|].
    destruct g as [c ps mode]. cbn in *. now subst.
  - intros (Hlen & Hord & mode & Hlanes & ->).
    apply checkOrdered_iff in Hord.
    apply (BcmPortGroup_ctor_of_inSync
             {| this := {| controllingPort_ := controllingPort;
                           allPorts_ := allPorts;
                           laneMode_ := mode |};
                asic := hw |}).
    + split; assumption.
    + exact Hlanes.
Qed.

(** X12.  The constructor's errors, in the order it checks: a member count other
    than four; then a member off its lane; then an active-lane count other
    than 1, 2 and 4, reported with the controlling port's identifier. *)
Theorem BcmPortGroup_ctor_errors (hw : Hw) (controllingPort : BcmPort)
    (allPorts : list BcmPort) :
  (length allPorts <> 4%nat ->
   BcmPortGroup_ctor hw controllingPort allPorts = Throw NotFourMembers) /\
  (length allPorts = 4%nat ->
   (exists k b, nth_error allPorts k = Some b /\
                getLane controllingPort b <> Z.of_nat k) ->
   BcmPortGroup_ctor hw controllingPort allPorts = Throw NotOrderedByLane) /\
  (length allPorts = 4%nat ->
   (forall k b, nth_error allPorts k = Some b ->
                getLane controllingPort b = Z.of_nat k) ->
   retrieveActiveLanes hw controllingPort <> 1 ->
   retrieveActiveLanes hw controllingPort <> 2 ->
   retrieveActiveLanes hw controllingPort <> 4 ->
   BcmPortGroup_ctor hw controllingPort allPorts
   = Throw (UnexpectedNumberOfLanes (getBcmPortId controllingPort))).
Proof.
  unfold BcmPortGroup_ctor. split; [|split].
  - intros Hlen.
    destruct (Z.eqb_spec (Z.of_nat (length allPorts)) 4); [lia|reflexivity].
  - intros Hlen (k & b & Hk & Hoff). rewrite Hlen. cbn [Z.of_nat Z.eqb
      Pos.eqb Pos.of_succ_nat Pos.succ negb].
    destruct (checkOrdered_cases controllingPort allPorts 0) as [Hord| ->];
      [|reflexivity].
    exfalso. apply Hoff. now apply (proj1 (checkOrdered_iff _ _) Hord).
  - intros Hlen Hord H1 H2 H4. rewrite Hlen.
    rewrite (proj2 (checkOrdered_iff _ _) Hord).
    cbn [Z.of_nat Z.eqb Pos.eqb Pos.of_succ_nat Pos.succ negb rbind].
    cbv zeta.
    destruct (Z.eqb_spec (retrieveActiveLanes hw controllingPort) 1);
      [contradiction|].
    destruct (Z.eqb_spec (retrieveActiveLanes hw controllingPort) 2);
      [contradiction|].
    destruct (Z.eqb_spec (retrieveActiveLanes hw controllingPort) 4);
      [contradiction|].
    reflexivity.
Qed.

(** X13.  The members of a group the constructor returns have pairwise distinct
    hardware identifiers. *)
Theorem BcmPortGroup_ctor_distinct_ids (hw : Hw) (controllingPort : BcmPort)
    (allPorts : list BcmPort) (g : BcmPortGroup) :
  BcmPortGroup_ctor hw controllingPort allPorts = Ok g ->
  NoDup (map (fun b : BcmPort => getBcmPortId b) (allPorts_ g)).
Proof.
  intros H.
  destruct (BcmPortGroup_ctor_ok _ _ _ _ _ H) as (_ & _ & [_ Hord] & _).
  apply NoDup_nth_error. intros i j Hi Hij.
  rewrite !nth_error_map in Hij.
  destruct (nth_error (allPorts_ g) i) as [b|] eqn:Hb.
  2:{ apply nth_error_None in Hb. rewrite length_map in Hi. lia. }
  destruct (nth_error (allPorts_ g) j) as [b'|] eqn:Hb'; [|discriminate].
  cbn in Hij. injection Hij as Hid.
  assert (E := checkOrdered_lane _ _ _ _ Hord _ _ Hb).
  assert (E' := checkOrdered_lane _ _ _ _ Hord _ _ Hb').
  unfold getLane in E, E'. rewrite Hid in E. lia.
Qed.

(** ** Reconfiguration on hardware that may refuse calls *)

Lemma issue_app (cs cs' : list HwCall) :
  forall hw,
    issue (cs ++ cs') hw
    = match issue cs hw with
      | (Ok _, hw1) => issue cs' hw1
      | other => other
      end.
Proof.
  induction cs as [|c cs IH]; intros hw; cbn [app issue].
  - reflexivity.
  - destruct (rejects hw c); [reflexivity | apply IH].
Qed.

Lemma issue_accepted (cs : list HwCall) :
  forall hw,
    (forall c, In c cs -> rejects hw c = false) ->
    issue cs hw = (Ok tt, replay cs hw).
Proof.
  induction cs as [|c cs IH]; intros hw Hacc; [reflexivity|].
  cbn [issue]. rewrite (Hacc c (or_introl eq_refl)).
  rewrite IH; [reflexivity|].
  intros c' Hc'. rewrite rejects_step. apply Hacc. now right.
Qed.

(** How a run of calls ends: all accepted, or a first refused call after
    an accepted prefix. *)
Lemma issue_trace (cs : list HwCall) :
  forall hw r hw',
    issue cs hw = (r, hw') ->
    (r = Ok tt /\ (forall c, In c cs -> rejects hw c = false) /\
     hw' = replay cs hw) \/
    (exists done c rest,
       cs = done ++ c :: rest /\
       (forall c', In c' done -> rejects hw c' = false) /\
       rejects hw c = true /\
       r = Throw (BcmError c) /\
       hw' = logCall c (replay done hw)).
Proof.
  induction cs as [|c cs IH]; intros hw r hw' H; cbn [issue] in H.
  - injection H as <- <-. left. repeat split. intros ? [].
  - destruct (rejects hw c) eqn:Hrej.
    + injection H as <- <-. right. exists [], c, cs. repeat split; auto.
      intros ? [].
    + destruct (IH _ _ _ H)
        as [(-> & Hacc & ->)|(done & c' & rest & -> & Hacc & Hc' & -> & ->)].
      * left. repeat split. intros c' [<-|Hc']; [exact Hrej|].
        rewrite <- (rejects_step c hw). now apply Hacc.
      * right. exists (c :: done), c', rest.
        rewrite rejects_step in Hc'. repeat split; auto.
        intros c'' [<-|Hc'']; [exact Hrej|].
        rewrite <- (rejects_step c hw). now apply Hacc.
Qed.

Lemma issue_rejects (cs : list HwCall) :
  forall hw, rejects (snd (issue cs hw)) = rejects hw.
Proof.
  induction cs as [|c cs IH]; intros hw; cbn [issue]; [reflexivity|].
  destruct (rejects hw c); [reflexivity|].
  now rewrite IH, rejects_step.
Qed.

(** Calls that do not address port [id] leave its administrative state. *)
Lemma issue_portEnabled_frame (id : Z) (cs : list HwCall) :
  (forall c, In c cs -> c <> PortDisable id /\ c <> PortEnable id) ->
  forall hw, portEnabled (snd (issue cs hw)) id = portEnabled hw id.
Proof.
  induction cs as [|c cs IH]; intros Hcs hw; cbn [issue]; [reflexivity|].
  destruct (rejects hw c); [reflexivity|].
  rewrite IH by (intros c' Hc'; apply Hcs; now right).
  destruct (Hcs c (or_introl eq_refl)) as [Hd He].
  destruct c as [i|i n|i]; cbn; unfold upd; try reflexivity;
    destruct (Z.eqb_spec id i); congruence.
Qed.

(** Calls that do not write the lane-control setting of port [id] leave
    it. *)
Lemma issue_controlLanes_frame (id : Z) (cs : list HwCall) :
  (forall c n, In c cs -> c <> PortControlLanes id n) ->
  forall hw, controlLanes (snd (issue cs hw)) id = controlLanes hw id.
Proof.
  induction cs as [|c cs IH]; intros Hcs hw; cbn [issue]; [reflexivity|].
  destruct (rejects hw c); [reflexivity|].
  rewrite IH by (intros c' n Hc'; apply Hcs; now right).
  destruct c as [i|i n|i]; cbn; unfold upd; try reflexivity.
  destruct (Z.eqb_spec id i) as [->|]; [|reflexivity].
  now destruct (Hcs (PortControlLanes i n) n (or_introl eq_refl)).
Qed.

Lemma issue_issued (cs : list HwCall) :
  forall hw, exists made rest,
    cs = made ++ rest /\
    issued (snd (issue cs hw)) = issued hw ++ made /\
    (fst (issue cs hw) = Ok tt -> rest = []).
Proof.
  intros hw. destruct (issue cs hw) as [r hw'] eqn:H.
  destruct (issue_trace _ _ _ _ H)
    as [(-> & _ & ->)|(done & c & rest & -> & _ & _ & -> & ->)]; cbn [fst snd].
  - exists cs, []. rewrite app_nil_r, issued_replay. auto.
  - exists (done ++ [c]), rest. rewrite <- app_assoc. cbn.
    rewrite issued_replay, <- app_assoc. repeat split. discriminate.
Qed.

(** The two loops of [reconfigure] are runs of SDK calls. *)
Lemma disableMembers_issue (bcmPorts : list BcmPort) (state : SwitchState) :
  forall m,
    disableMembers bcmPorts state m
    = (fst (issue (map (fun b => PortDisable (getBcmPortId b)) bcmPorts)
              (asic m)),
       {| this := this m;
          asic := snd (issue (map (fun b => PortDisable (getBcmPortId b))
                                bcmPorts) (asic m)) |}).
Proof.
  induction bcmPorts as [|b rest IH]; intros m.
  - now destruct m.
  - cbn [disableMembers map issue]. unfold bind, BcmPort_disable, sdkCall.
    destruct (rejects (asic m) (PortDisable (getBcmPortId b)));
      [reflexivity|].
    now rewrite IH.
Qed.

Lemma enableMembers_issue (bcmPorts : list BcmPort) (state : SwitchState) :
  forall m,
    enableMembers bcmPorts state m
    = (fst (issue (map (fun b => PortEnable (getBcmPortId b))
                     (enabledMembers bcmPorts state)) (asic m)),
       {| this := this m;
          asic := snd (issue (map (fun b => PortEnable (getBcmPortId b))
                                (enabledMembers bcmPorts state))
                         (asic m)) |}).
Proof.
  induction bcmPorts as [|b rest IH]; intros m.
  - now destruct m.
  - cbn [enableMembers enabledMembers filter]. unfold bind.
    fold (enabledMembers rest state).
    destruct (negb (isDisabled (getSwitchStatePort b state))).
    + cbn [map issue]. unfold BcmPort_enable, sdkCall.
      destruct (rejects (asic m) (PortEnable (getBcmPortId b)));
        [reflexivity|].
      now rewrite IH.
    + unfold ret. now rewrite IH.
Qed.

(** [reconfigure] as one run of [reconfigureCalls]; the mode is recorded
    when the run gets through the register write. *)
Lemma reconfigure_issue (state : SwitchState) (mode : LaneMode)
    (m : Machine) :
  reconfigure state mode m
  = (fst (issue (reconfigureCalls (this m) state mode) (asic m)),
     {| this :=
          match fst (issue (disableCalls (this m)
                              ++ [lanesCall (this m) mode]) (asic m)) with
          | Ok _ => withLaneMode (this m) mode
          | _ => this m
          end;
        asic := snd (issue (reconfigureCalls (this m) state mode)
                       (asic m)) |}).
Proof.
  unfold reconfigure, bind at 1, getThis, bind at 1.
  rewrite disableMembers_issue. unfold reconfigureCalls.
  rewrite !issue_app. fold (disableCalls (this m)).
  destruct (issue (disableCalls (this m)) (asic m)) as [[[]|e|] hw1];
    cbn [fst snd]; try reflexivity.
  unfold bind at 1, setActiveLanes, bind at 1, getThis, bind at 1.
  cbn [this asic]. fold (lanesCall (this m) mode).
  unfold sdkCall. cbn [this asic app issue].
  destruct (rejects hw1 (lanesCall (this m) mode)); [reflexivity|].
  unfold setLaneMode. cbn [this asic fst snd].
  rewrite enableMembers_issue. cbn [this asic allPorts_].
  fold (withLaneMode (this m) mode). unfold enableCalls.
  now destruct (issue _ _).
Qed.

Lemma reconfigureCalls_members (g : BcmPortGroup) (state : SwitchState)
    (mode : LaneMode) (c : HwCall) :
  In c (reconfigureCalls g state mode) ->
  (exists b, In b (allPorts_ g) /\
             (c = PortDisable (getBcmPortId b) \/
              c = PortEnable (getBcmPortId b))) \/
  c = lanesCall g mode.
Proof.
  unfold reconfigureCalls, disableCalls, enableCalls, enabledMembers.
  intros H. apply in_app_or in H. destruct H as [H|[<-|H]].
  - apply in_map_iff in H. destruct H as (b & <- & Hb). left. eauto.
  - now right.
  - apply in_map_iff in H. destruct H as (b & <- & Hb).
    apply filter_In in Hb. left. exists b. intuition.
Qed.

Lemma reconfigureIfNeeded_members (state : SwitchState) (m m' : Machine)
    (r : result unit) :
  reconfigureIfNeeded state m = (r, m') ->
  exists mode, this m' = withLaneMode (this m) mode.
Proof.
  rewrite reconfigureIfNeeded_unfold.
  assert (Hsame : this m = withLaneMode (this m) (laneMode_ (this m)))
    by now destruct (this m).
  destruct (getDesiredLaneMode (this m) state) as [d| |];
    [|intros H; injection H as <- <-; eauto
     |intros H; injection H as <- <-; eauto].
  destruct (negb _); [|intros H; injection H as <- <-; eauto].
  rewrite reconfigure_issue. intros H. injection H as <- <-. cbn [this].
  destruct (fst _); eauto.
Qed.

Lemma reconfigureIfNeeded_keeps_inSync (state : SwitchState)
    (m m' : Machine) (r : result unit) :
  inSync m -> reconfigureIfNeeded state m = (r, m') -> inSync m'.
Proof.
  intros Hsync. rewrite reconfigureIfNeeded_unfold.
  destruct (getDesiredLaneMode (this m) state) as [d| |];
    [|intros H; now injection H as <- <-
     |intros H; now injection H as <- <-].
  destruct (negb _); [|intros H; now injection H as <- <-].
  intros H. apply reconfigure_result in H.
  destruct H as [(Hf & _)|(_ & _ & Hs & _)]; [|exact Hs].
  eapply portCallsOnly_inSync; eassumption.
Qed.

(** X15.  Whatever the hardware refuses, the calls one [reconfigureIfNeeded]
    issues are an initial part of the sequence "disable every member, write
    the lane count, enable the members the snapshot enables": no port is
    brought up before all four are down and the register is written, and
    nothing outside that sequence is ever called.  When the call returns,
    the whole sequence was issued or nothing was. *)
Theorem reconfigureIfNeeded_calls_prefix (state : SwitchState)
    (m m' : Machine) (r : result unit) :
  reconfigureIfNeeded state m = (r, m') ->
  exists made,
    issued (asic m') = issued (asic m) ++ made /\
    (made = [] \/
     exists mode rest,
       getDesiredLaneMode (this m) state = Ok mode /\
       mode <> laneMode_ (this m) /\
       reconfigureCalls (this m) state mode = made ++ rest /\
       (r = Ok tt -> rest = [])).
Proof.
  rewrite reconfigureIfNeeded_unfold.
  destruct (getDesiredLaneMode (this m) state) as [d| |];
    [|intros H; injection H as <- <-; exists []; rewrite app_nil_r; auto
     |intros H; injection H as <- <-; exists []; rewrite app_nil_r; auto].
  destruct (LaneMode_eqb d (laneMode_ (this m))) eqn:He; cbn [negb];
    [intros H; injection H as <- <-; exists []; rewrite app_nil_r; auto|].
  rewrite reconfigure_issue. intros H. injection H as <- <-. cbn [asic].
  destruct (issue_issued (reconfigureCalls (this m) state d) (asic m))
    as (made & rest & Hsplit & Hissued & Hok).
  exists made. split; [exact Hissued|]. right. exists d, rest.
  repeat split; auto.
  intros ->. rewrite LaneMode_eqb_refl in He. discriminate.
Qed.

(** X16.  [reconfigureIfNeeded] touches nothing but its own group, however it
    ends: the administrative state of every port that is not a member, the
    lane-control setting of every port but the controlling one, and the
    controlling port and members held by the group object are as before. *)
Theorem reconfigureIfNeeded_frame (state : SwitchState) (m m' : Machine)
    (r : result unit) :
  reconfigureIfNeeded state m = (r, m') ->
  (forall id,
     (forall b, In b (allPorts_ (this m)) -> getBcmPortId b <> id) ->
     portEnabled (asic m') id = portEnabled (asic m) id) /\
  (forall id,
     id <> getBcmPortId (controllingPort_ (this m)) ->
     controlLanes (asic m') id = controlLanes (asic m) id) /\
  controllingPort_ (this m') = controllingPort_ (this m) /\
  allPorts_ (this m') = allPorts_ (this m).
Proof.
  intros H.
  destruct (reconfigureIfNeeded_members _ _ _ _ H) as [mode' Hthis].
  rewrite Hthis. cbn [withLaneMode controllingPort_ allPorts_].
  rewrite reconfigureIfNeeded_unfold in H.
  destruct (getDesiredLaneMode (this m) state) as [d| |];
    [|injection H as <- <-; auto|injection H as <- <-; auto].
  destruct (negb _); [|injection H as <- <-; auto].
  rewrite reconfigure_issue in H. injection H as <- <-. cbn [asic].
  repeat split.
  - intros id Hid. apply issue_portEnabled_frame.
    intros c Hc. apply reconfigureCalls_members in Hc.
    destruct Hc as [(b & Hb & [->| ->])| ->];
      split; intros E; try discriminate;
      injection E as E; now apply (Hid b Hb).
  - intros id Hid. apply issue_controlLanes_frame.
    intros c n Hc. apply reconfigureCalls_members in Hc.
    destruct Hc as [(b & Hb & [->| ->])| ->]; try discriminate.
    unfold lanesCall. intros E. injection E as E _. congruence.
Qed.

(** X17.  No rollback: when the snapshot asks for another mode and the hardware
    takes the disables but refuses the register write, the call ends with
    the SDK's error for that write, the recorded mode and the register are
    as before, no port has been brought up again, and every member is left
    down. *)
Theorem reconfigureIfNeeded_lanes_write_refused (state : SwitchState)
    (m : Machine) (mode : LaneMode) :
  getDesiredLaneMode (this m) state = Ok mode ->
  mode <> laneMode_ (this m) ->
  (forall b, In b (allPorts_ (this m)) ->
     rejects (asic m) (PortDisable (getBcmPortId b)) = false) ->
  rejects (asic m) (lanesCall (this m) mode) = true ->
  exists m',
    reconfigureIfNeeded state m
    = (Throw (BcmError (lanesCall (this m) mode)), m') /\
    this m' = this m /\
    controlLanes (asic m') = controlLanes (asic m) /\
    issued (asic m')
    = issued (asic m) ++ disableCalls (this m)
      ++ [lanesCall (this m) mode] /\
    (forall b, In b (allPorts_ (this m)) ->
       portEnabled (asic m') (getBcmPortId b) = false).
Proof.
  intros Hd Hneq Hacc Hrej.
  assert (Hrun : forall cs,
             issue (disableCalls (this m)
                      ++ [lanesCall (this m) mode] ++ cs) (asic m)
             = (Throw (BcmError (lanesCall (this m) mode)),
                logCall (lanesCall (this m) mode)
                  (replay (disableCalls (this m)) (asic m)))).
  { intros cs. rewrite issue_app, issue_accepted.
    - cbn [app issue]. now rewrite rejects_replay, Hrej.
    - intros c Hc. unfold disableCalls in Hc. apply in_map_iff in Hc.
      destruct Hc as (b & <- & Hb). now apply Hacc. }
  eexists. split.
  { rewrite reconfigureIfNeeded_unfold, Hd.
    destruct (LaneMode_eqb mode (laneMode_ (this m))) eqn:He.
    - apply LaneMode_eqb_eq in He. contradiction.
    - cbn [negb]. rewrite reconfigure_issue. unfold reconfigureCalls.
      rewrite Hrun. rewrite <- (app_nil_r [lanesCall (this m) mode]).
      rewrite Hrun. cbn [fst snd]. reflexivity. }
  cbn [this asic]. repeat split.
  - assert (Hl : forall cs hw,
               controlLanes
                 (replay (map (fun b : BcmPort =>
                                 PortDisable (getBcmPortId b)) cs) hw)
               = controlLanes hw).
    { induction cs as [|c cs IH]; intros hw; [reflexivity|].
      cbn [map replay fold_left].
      fold (replay (map (fun b : BcmPort => PortDisable (getBcmPortId b)) cs)
              (effect (PortDisable (getBcmPortId c))
                 (logCall (PortDisable (getBcmPortId c)) hw))).
      now rewrite IH. }
    cbn [logCall controlLanes]. apply Hl.
  - cbn [logCall issued]. now rewrite issued_replay, <- app_assoc.
  - intros b Hb. cbn [logCall portEnabled]. unfold disableCalls.
    rewrite portEnabled_after_disables. now rewrite (member_found _ _ b Hb).
Qed.

Lemma issue_throw_in (cs : list HwCall) (hw : Hw) (e : FbossError) :
  fst (issue cs hw) = Throw e -> exists c, e = BcmError c /\ In c cs.
Proof.
  destruct (issue cs hw) as [r hw'] eqn:H. cbn [fst]. intros ->.
  destruct (issue_trace _ _ _ _ H)
    as [(Hr & _)|(done & c & rest & -> & _ & _ & Hr & _)];
    [discriminate|].
  injection Hr as ->. exists c. split; [reflexivity|].
  apply in_or_app. right. now left.
Qed.

(** X18.  A refused enable is not retried: when [reconfigureIfNeeded] ends with
    the SDK's error for a port enable, the new mode has already been
    recorded, so a second call on the same snapshot returns without issuing
    a call, and the ports that were not brought up stay as they are. *)
Theorem reconfigureIfNeeded_enable_refused_then_noop (state : SwitchState)
    (m m1 : Machine) (id : Z) :
  reconfigureIfNeeded state m = (Throw (BcmError (PortEnable id)), m1) ->
  getDesiredLaneMode (this m) state = Ok (laneMode_ (this m1)) /\
  reconfigureIfNeeded state m1 = (Ok tt, m1).
Proof.
  rewrite reconfigureIfNeeded_unfold.
  assert (Hnb := getDesiredLaneMode_no_BcmError _ (this m) state
                   (PortEnable id)).
  destruct (getDesiredLaneMode (this m) state) as [d| |] eqn:Hd;
    [|intros H; injection H as -> _; now destruct Hnb|discriminate].
  destruct (negb _); [|discriminate].
  rewrite reconfigure_issue. intros H. injection H as Hr <-.
  assert (Hpre : exists u,
             fst (issue (disableCalls (this m) ++ [lanesCall (this m) d])
                    (asic m)) = Ok u).
  { unfold reconfigureCalls in Hr.
    rewrite app_assoc, issue_app in Hr.
    destruct (issue (disableCalls (this m) ++ [lanesCall (this m) d])
                (asic m)) as [[u|e|] hw1] eqn:Hrun; cbn [fst] in *.
    - eauto.
    - exfalso. injection Hr as ->.
      destruct (issue_throw_in
                  (disableCalls (this m) ++ [lanesCall (this m) d])
                  (asic m) (BcmError (PortEnable id))) as (c & Hc & Hin).
      { now rewrite Hrun. }
      injection Hc as <-. apply in_app_or in Hin.
      destruct Hin as [Hin|[Hin|[]]]; [|discriminate].
      unfold disableCalls in Hin. apply in_map_iff in Hin.
      destruct Hin as (b & Hb & _). discriminate.
    - discriminate. }
  destruct Hpre as [u Hpre]. rewrite Hpre. cbn [this laneMode_ withLaneMode].
  split; [reflexivity|].
  rewrite reconfigureIfNeeded_unfold. cbn [this].
  rewrite getDesiredLaneMode_withLaneMode, Hd. cbn [laneMode_ withLaneMode].
  now rewrite LaneMode_eqb_refl.
Qed.

(** X19.  After a [reconfigureIfNeeded] that returns, the recorded lane mode is
    the one the snapshot resolves to. *)
Theorem reconfigureIfNeeded_converges (state : SwitchState) (m m' : Machine) :
  reconfigureIfNeeded state m = (Ok tt, m') ->
  getDesiredLaneMode (this m') state = Ok (laneMode_ (this m')).
Proof.
  rewrite reconfigureIfNeeded_unfold.
  destruct (getDesiredLaneMode (this m) state) as [d| |] eqn:Hd;
    try discriminate.
  destruct (LaneMode_eqb d (laneMode_ (this m))) eqn:He; cbn [negb].
  - intros H. injection H as <-. apply LaneMode_eqb_eq in He. congruence.
  - intros H. apply reconfigure_result in H.
    destruct H as [(_ & c & Hc)|(_ & Hthis & _)]; [discriminate|].
    now rewrite Hthis, getDesiredLaneMode_withLaneMode.
Qed.

(** X14.  Object and hardware stay re-constructible: after any
    [reconfigureIfNeeded] on a group the constructor returned, however the
    call ends, constructing a group again from the same ports on the
    resulting hardware gives the group object as it now is. *)
Theorem BcmPortGroup_ctor_after_reconfigure (hw : Hw)
    (controllingPort : BcmPort) (allPorts : list BcmPort)
    (g : BcmPortGroup) (state : SwitchState) (r : result unit)
    (m' : Machine) :
  BcmPortGroup_ctor hw controllingPort allPorts = Ok g ->
  reconfigureIfNeeded state {| this := g; asic := hw |} = (r, m') ->
  BcmPortGroup_ctor (asic m') controllingPort allPorts = Ok (this m').
Proof.
  intros Hctor Hrun.
  destruct (BcmPortGroup_ctor_ok _ _ _ _ _ Hctor) as (Hc & Hp & Hwf & Hs).
  assert (Hs' := reconfigureIfNeeded_keeps_inSync _ _ _ _ Hs Hrun).
  destruct (reconfigureIfNeeded_members _ _ _ _ Hrun) as [mode Hthis].
  cbn [this] in Hthis.
  assert (Hwf' : wellFormed (this m')) by (rewrite Hthis; exact Hwf).
  rewrite <- Hc, <- Hp.
  replace (controllingPort_ g) with (controllingPort_ (this m'))
    by now rewrite Hthis.
  replace (allPorts_ g) with (allPorts_ (this m')) by now rewrite Hthis.
  now apply BcmPortGroup_ctor_of_inSync.
Qed.

End MoreGroupProperties.

(* ================================================================= *)
(** ** The further properties on the example group *)

(** Scenario A on the example group. *)
Lemma getDesiredLaneMode_supported_witness :
  getDesiredLaneMode (Example.group QUAD) Example.allTenG
  = calculateDesiredLaneMode
      (map (fun b => getSwitchStatePort b Example.allTenG) Example.members)
      Example.XG.
Proof.
  apply (getDesiredLaneMode_supported _ (Example.group QUAD)
           Example.allTenG).
  intros b [<-|[<-|[<-|[<-|[]]]]]; reflexivity.
Defined.

(** Four disabled ports, the last at a rate its port does not support. *)
Lemma getDesiredLaneMode_first_unsupported_witness :
  getDesiredLaneMode (Example.group QUAD) Example.disabledOddSpeed
  = Throw (PortDoesNotSupportSpeed 4 12345).
Proof.
  apply (getDesiredLaneMode_first_unsupported _ (Example.group QUAD)
           Example.disabledOddSpeed
           [Example.bcmPort 0; Example.bcmPort 1; Example.bcmPort 2] []
           (Example.bcmPort 3)).
  - reflexivity.
  - intros b [<-|[<-|[<-|[]]]]; reflexivity.
  - reflexivity.
Defined.

Lemma validConfiguration_all_disabled_witness :
  validConfiguration (Example.group QUAD) Example.disabledOddSpeed
  = Ok false /\
  validConfiguration (Example.group QUAD) Example.allDisabled = Ok true.
Proof.
  split.
  - apply (validConfiguration_all_disabled _ (Example.group QUAD)
             Example.disabledOddSpeed).
    intros b [<-|[<-|[<-|[<-|[]]]]]; reflexivity.
  - apply (validConfiguration_all_disabled _ (Example.group QUAD)
             Example.allDisabled).
    intros b [<-|[<-|[<-|[<-|[]]]]]; reflexivity.
Defined.

(** Members whose identifiers lie 256 above the controlling port's lanes
    pass the lane check, which sees the offsets truncated to 8 bits. *)
Lemma BcmPortGroup_ctor_ok_iff_witness :
  BcmPortGroup_ctor (Example.chip 2) (Example.bcmPort 0)
    [Example.farMember 0; Example.farMember 1;
     Example.farMember 2; Example.farMember 3]
  = Ok {| controllingPort_ := Example.bcmPort 0;
          allPorts_ := [Example.farMember 0; Example.farMember 1;
                        Example.farMember 2; Example.farMember 3];
          laneMode_ := DUAL |}.
Proof.
  apply (proj2 (BcmPortGroup_ctor_ok_iff _ (Example.chip 2)
                  (Example.bcmPort 0) _ _)).
  split; [reflexivity|]. split.
  - intros [|[|[|[|[|k]]]]] b Hk; cbn in Hk; try discriminate;
      injection Hk as <-; reflexivity.
  - exists DUAL. split; reflexivity.
Defined.

(** Three members; four members in the wrong order; three active lanes. *)
Lemma BcmPortGroup_ctor_errors_witness :
  BcmPortGroup_ctor (Example.chip 1) (Example.bcmPort 0)
    [Example.bcmPort 0; Example.bcmPort 1; Example.bcmPort 2]
  = Throw NotFourMembers /\
  BcmPortGroup_ctor (Example.chip 1) (Example.bcmPort 0)
    [Example.bcmPort 0; Example.bcmPort 2;
     Example.bcmPort 1; Example.bcmPort 3]
  = Throw NotOrderedByLane /\
  BcmPortGroup_ctor (Example.chip 3) (Example.bcmPort 0) Example.members
  = Throw (UnexpectedNumberOfLanes 1).
Proof.
  split; [|split].
  - apply (proj1 (BcmPortGroup_ctor_errors _ (Example.chip 1)
                    (Example.bcmPort 0) _)).
    discriminate.
  - apply (proj1 (proj2 (BcmPortGroup_ctor_errors _ (Example.chip 1)
                           (Example.bcmPort 0) _))).
    + reflexivity.
    + exists 1%nat, (Example.bcmPort 2). split; [reflexivity|discriminate].
  - apply (proj2 (proj2 (BcmPortGroup_ctor_errors _ (Example.chip 3)
                           (Example.bcmPort 0) Example.members))).
    + reflexivity.
    + intros [|[|[|[|[|k]]]]] b Hk; cbn in Hk; try discriminate;
        injection Hk as <-; reflexivity.
    + discriminate.
    + discriminate.
    + discriminate.
Defined.

Lemma BcmPortGroup_ctor_distinct_ids_witness :
  NoDup (map (fun b : BcmPort Example.Snapshot => getBcmPortId b)
           Example.members).
Proof.
  apply (BcmPortGroup_ctor_distinct_ids _ (Example.chip 4)
           (Example.bcmPort 0) Example.members (Example.group SINGLE)).
  reflexivity.
Defined.

(** Scenario B on a chip that refuses the register write. *)
Lemma reconfigureIfNeeded_calls_prefix_witness :
  exists made,
    issued (asic (snd (reconfigureIfNeeded Example.oneFortyG
                         Example.lanesStuck)))
    = issued (asic Example.lanesStuck) ++ made /\
    (made = [] \/
     exists mode rest,
       getDesiredLaneMode (this Example.lanesStuck) Example.oneFortyG
       = Ok mode /\
       mode <> laneMode_ (this Example.lanesStuck) /\
       reconfigureCalls (this Example.lanesStuck) Example.oneFortyG mode
       = made ++ rest /\
       (Throw (BcmError (PortControlLanes 1 4)) = Ok tt -> rest = [])).
Proof.
  apply (reconfigureIfNeeded_calls_prefix _ Example.oneFortyG
           Example.lanesStuck).
  reflexivity.
Defined.

Lemma reconfigureIfNeeded_frame_witness :
  portEnabled (asic Example.afterOneFortyG) 5
  = portEnabled (asic (Example.machine QUAD)) 5 /\
  controlLanes (asic Example.afterOneFortyG) 2
  = controlLanes (asic (Example.machine QUAD)) 2.
Proof.
  destruct (reconfigureIfNeeded_frame _ Example.oneFortyG
              (Example.machine QUAD) Example.afterOneFortyG (Ok tt)
              eq_refl) as (Hports & Hlanes & _).
  split.
  - apply Hports. intros b [<-|[<-|[<-|[<-|[]]]]]; discriminate.
  - apply Hlanes. discriminate.
Defined.

Lemma reconfigureIfNeeded_lanes_write_refused_witness :
  exists m',
    reconfigureIfNeeded Example.oneFortyG Example.lanesStuck
    = (Throw (BcmError (PortControlLanes 1 4)), m') /\
    laneMode_ (this m') = QUAD /\
    issued (asic m')
    = [PortDisable 1; PortDisable 2; PortDisable 3; PortDisable 4;
       PortControlLanes 1 4] /\
    portEnabled (asic m') 1 = false.
Proof.
  destruct (reconfigureIfNeeded_lanes_write_refused _ Example.oneFortyG
              Example.lanesStuck SINGLE)
    as (m' & Hrun & Hthis & _ & Hcalls & Hdown).
  - reflexivity.
  - discriminate.
  - intros b _. reflexivity.
  - reflexivity.
  - exists m'. split; [exact Hrun|]. split; [now rewrite Hthis|].
    split; [exact Hcalls|].
    apply (Hdown (Example.bcmPort 0)). now left.
Defined.

(** Scenario B on a chip that refuses to bring ports up. *)
Lemma reconfigureIfNeeded_enable_refused_then_noop_witness :
  reconfigureIfNeeded Example.oneFortyG
    (snd (reconfigureIfNeeded Example.oneFortyG Example.enableStuck))
  = (Ok tt, snd (reconfigureIfNeeded Example.oneFortyG Example.enableStuck)).
Proof.
  apply (reconfigureIfNeeded_enable_refused_then_noop _ Example.oneFortyG
           Example.enableStuck _ 1).
  reflexivity.
Defined.

Lemma reconfigureIfNeeded_converges_witness :
  getDesiredLaneMode (this Example.afterOneFortyG) Example.oneFortyG
  = Ok (laneMode_ (this Example.afterOneFortyG)).
Proof.
  apply (reconfigureIfNeeded_converges _ Example.oneFortyG
           (Example.machine QUAD)).
  reflexivity.
Defined.

Lemma BcmPortGroup_ctor_after_reconfigure_witness :
  BcmPortGroup_ctor (asic Example.afterOneFortyG) (Example.bcmPort 0)
    Example.members
  = Ok (this Example.afterOneFortyG).
Proof.
  apply (BcmPortGroup_ctor_after_reconfigure _ (Example.chip 1)
           (Example.bcmPort 0) Example.members (Example.group QUAD)
           Example.oneFortyG (Ok tt)).
  - reflexivity.
  - reflexivity.
Defined.

(** C8 as stated fails on [getDesiredLaneMode]: with all four ports
    disabled and lane 3 configured at a rate its port does not support,
    resolution over the snapshot throws instead of yielding QUAD. *)
Lemma all_disabled_unsupported_speed_counterexample :
  forallb isDisabled
    (map (fun b => getSwitchStatePort b Example.disabledOddSpeed)
       (allPorts_ (Example.group QUAD))) = true /\
  getDesiredLaneMode (Example.group QUAD) Example.disabledOddSpeed
  = Throw (PortDoesNotSupportSpeed 4 12345) /\
  getDesiredLaneMode (Example.group QUAD) Example.disabledOddSpeed
  <> Ok QUAD.
Proof.
  split; [reflexivity|]. split; [reflexivity|]. discriminate.
Qed.

(** The amended C8 on four disabled 40G ports, which the example ports
    support, and on the snapshot with the unsupported rate on lane 3. *)
Lemma all_disabled_resolution_witness :
  calculateDesiredLaneMode Example.disabledOddSpeed Example.XG = Ok QUAD /\
  getDesiredLaneMode (Example.group QUAD) Example.allDisabled = Ok QUAD /\
  getDesiredLaneMode (Example.group QUAD) Example.disabledOddSpeed
  = Throw (PortDoesNotSupportSpeed 4 12345).
Proof.
  destruct (all_disabled_resolution Example.Snapshot) as [Hcalc Hget].
  split; [|split].
  - apply (Hcalc Example.disabledOddSpeed Example.XG).
    intros p [<-|[<-|[<-|[<-|[]]]]]; reflexivity.
  - apply (proj1 (Hget (Example.group QUAD) Example.allDisabled
                    ltac:(intros b [<-|[<-|[<-|[<-|[]]]]]; reflexivity))).
    intros b [<-|[<-|[<-|[<-|[]]]]]; reflexivity.
  - apply (proj2 (Hget (Example.group QUAD) Example.disabledOddSpeed
                    ltac:(intros b [<-|[<-|[<-|[<-|[]]]]]; reflexivity))
             [Example.bcmPort 0; Example.bcmPort 1; Example.bcmPort 2] []
             (Example.bcmPort 3)).
    + reflexivity.
    + intros b [<-|[<-|[<-|[]]]]; reflexivity.
    + reflexivity.
Defined.
